(** * plugin-penpot, [main.js]: provider adaptation and conversation session

    A shallow embedding of the client script [src/main.js]: credential
    lookup ([getApiKey]), the model list computed in [fetchModels], the
    request body, the extraction of the assistant text and the rendering
    done in [sendChat], and the event loop that interleaves sends with the
    arrival of their responses.

    Conventions.
    - A JavaScript string is a [string]; each character stands for one
      code unit.
    - A value read out of [res.json()] is a [json]; [undefined], which a
      property read may yield, is [None] in [value := option json].
    - A JavaScript Number is kept abstract ([Number] class): the script only
      converts numbers to booleans and to strings.
    - A statement that may throw returns a [result]; statements that touch the
      page thread a [world], and the part of [sendChat] that runs once the
      response is there a [document], the page as a lookup by id sees it.
    - The HTML parser of the browser is kept abstract ([Parser] class): of
      the markup assigned through [innerHTML] the script can only reach the
      elements that have an id. Scripts that such markup may start (inline
      event handlers) are outside the model. *)

From Stdlib Require Import String Ascii List Bool ZArith Lia.
From Stdlib Require Import Decimal DecimalString DecimalZ.
Import ListNotations.

Local Open Scope list_scope.
Local Open Scope string_scope.
Local Set Warnings "-register-all".

(* ================================================================= *)
(** ** Strings *)

Definition LF : ascii := ascii_of_nat 10.
Definition DQUOTE : ascii := ascii_of_nat 34.
Definition BACKSLASH : ascii := ascii_of_nat 92.

(** [WhiteSpace] and [LineTerminator] code units below 256, the ones
    [String.prototype.trim] strips: TAB, LF, VT, FF, CR, SP, NBSP. *)
Definition isWhiteSpace (c : ascii) : bool :=
  let n := nat_of_ascii c in
  (Nat.leb 9 n && Nat.leb n 13) || Nat.eqb n 32 || Nat.eqb n 160.

Fixpoint trimStart (s : string) : string :=
  match s with
  | String c r => if isWhiteSpace c then trimStart r else s
  | EmptyString => EmptyString
  end.

(** Strips trailing white space: a character is kept when it is not white
    space or when something is kept after it. *)
Fixpoint trimEnd (s : string) : string :=
  match s with
  | EmptyString => EmptyString
  | String c r =>
      match trimEnd r with
      | EmptyString => if isWhiteSpace c then EmptyString else String c EmptyString
      | r' => String c r'
      end
  end.

(** [s.trim()] *)
Definition trim (s : string) : string := trimEnd (trimStart s).

(** ToBoolean of a string: [""] is the only falsy one. *)
Definition nonEmpty (s : string) : bool :=
  match s with EmptyString => false | _ => true end.

(** Canonicalisation of a code unit under the [i] flag of a non-unicode
    regular expression: ASCII letters are folded, and no code unit outside
    ASCII is folded onto an ASCII letter. *)
Definition upcase (c : ascii) : ascii :=
  let n := nat_of_ascii c in
  if Nat.leb 97 n && Nat.leb n 122 then ascii_of_nat (n - 32) else c.

Fixpoint prefix_i (p s : string) : bool :=
  match p, s with
  | EmptyString, _ => true
  | String a p', String b s' => Ascii.eqb (upcase a) (upcase b) && prefix_i p' s'
  | String _ _, EmptyString => false
  end.

(** [/p/i.test(s)] for a literal pattern [p]. *)
Fixpoint test_i (p s : string) : bool :=
  prefix_i p s || match s with
                  | EmptyString => false
                  | String _ s' => test_i p s'
                  end.

(** [/<\/?script/i.test(s)] *)
Definition test_script (s : string) : bool :=
  test_i "<script" s || test_i "</script" s.

(** [/CORS|Network|Failed to fetch/i.test(s)] *)
Definition test_network (s : string) : bool :=
  test_i "CORS" s || test_i "Network" s || test_i "Failed to fetch" s.

(** [s.replace(/\n/g, '<br>')] *)
Fixpoint replace_newlines (s : string) : string :=
  match s with
  | EmptyString => EmptyString
  | String c r =>
      if Ascii.eqb c LF then "<br>" ++ replace_newlines r
      else String c (replace_newlines r)
  end.

(** [parts.join(sep)] on an array of strings. *)
Definition join (sep : string) (parts : list string) : string :=
  String.concat sep parts.

(** Number::toString of an integer of magnitude below 10^21, such as a
    [Date.now()] reading, an HTTP status or an array index. *)
Definition Z_toString (z : Z) : string :=
  NilEmpty.string_of_int (Z.to_int z).

(* ================================================================= *)
(** ** Exceptions and fallible statements *)

(** An [Error] object, as far as the script looks at it. *)
Record exn := mkExn { name : string; message : string }.

Definition Error (msg : string) : exn := mkExn "Error" msg.
Definition TypeError (msg : string) : exn := mkExn "TypeError" msg.

(** [Error.prototype.toString] *)
Definition exn_toString (e : exn) : string :=
  if negb (nonEmpty (name e)) then message e
  else if negb (nonEmpty (message e)) then name e
  else name e ++ ": " ++ message e.

(** [err.message || err], as the right operand of a string [+]. *)
Definition message_or_err (e : exn) : string :=
  if nonEmpty (message e) then message e else exn_toString e.

Inductive result (A : Type) : Type :=
| Ok (a : A)
| Throw (e : exn).
Arguments Ok {A} a.
Arguments Throw {A} e.

Definition bind {A B : Type} (r : result A) (k : A -> result B) : result B :=
  match r with
  | Ok a => k a
  | Throw e => Throw e
  end.

Notation "x <- e ;; k" := (bind e (fun x => k))
  (at level 61, e at next level, right associativity).

(** [xs.map(f)] where [f] may throw: the first exception ends the map. *)
Fixpoint mapM {A B : Type} (f : A -> result B) (xs : list A) : result (list B) :=
  match xs with
  | [] => Ok []
  | x :: r => y <- f x ;; ys <- mapM f r ;; Ok (y :: ys)
  end.

(* ================================================================= *)
(** ** JSON values *)

(** What the script does with a Number. *)
Class Number (num : Type) : Type := {
  (** ToBoolean: false for [+0], [-0] and [NaN] *)
  Number_toBoolean : num -> bool;
  (** Number::toString *)
  Number_toString : num -> string;
  (** false for [Infinity], [-Infinity] and [NaN] *)
  Number_isFinite : num -> bool;
  (** the literal [0.7] *)
  Number_0_7 : num
}.

(** An object keeps its own enumerable properties in property order. *)
Inductive json (num : Type) : Type :=
| JNull
| JBool (b : bool)
| JNum (n : num)
| JStr (s : string)
| JArr (items : list (json num))
| JObj (props : list (string * json num)).
Arguments JNull {num}.
Arguments JBool {num} b.
Arguments JNum {num} n.
Arguments JStr {num} s.
Arguments JArr {num} items.
Arguments JObj {num} props.

(** A JavaScript value of the script: [None] is [undefined]. *)
Definition value (num : Type) : Type := option (json num).

(** An element that markup assigned through [innerHTML] brought into the
    page, as far as the script can reach it: its [id] ([""] for none), the
    text the script has put in it through [textContent], if it has, and the
    elements inside it, in document order. *)
Inductive node : Type :=
| Node (node_id : string) (node_text : option string) (inside : list node).

(** The HTML fragment parser of the browser: the elements a fragment gives,
    in document order. *)
Class Parser : Type := {
  parseFragment : string -> list node
}.

(** Changes the first element of a list that [p] holds of: [f] gives what
    takes its place, or [None] when it goes. *)
Section UpdateFirst.
Variable A : Type.
Variable p : A -> bool.
Variable f : A -> option A.

Fixpoint update_first (xs : list A) : list A :=
  match xs with
  | [] => []
  | x :: r =>
      if p x
      then match f x with
           | Some y => y :: r
           | None => r
           end
      else x :: update_first r
  end.

End UpdateFirst.
Arguments update_first {A} p f xs.

(** [n], or an element inside it, has the id [id]. *)
Fixpoint node_has (id : string) (n : node) : bool :=
  match n with
  | Node i _ inside => String.eqb i id || existsb (node_has id) inside
  end.

(** [t.remove()] for the first element [t] of id [id] in [n], in document
    order: [None] when it is [n] itself. *)
Fixpoint node_remove (id : string) (n : node) : option node :=
  match n with
  | Node i t inside =>
      if String.eqb i id then None
      else Some (Node i t (update_first (node_has id) (node_remove id) inside))
  end.

(** [t.textContent = text] for the first element [t] of id [id] in [n], in
    document order: [t] keeps its id and loses what was inside it. *)
Fixpoint node_set_text (id text : string) (n : node) : node :=
  match n with
  | Node i t inside =>
      if String.eqb i id then Node i (Some text) []
      else Node i t (update_first (node_has id)
                                  (fun x => Some (node_set_text id text x)) inside)
  end.

Section Values.
Context {num : Type} `{Number num} `{Parser}.

(** ToBoolean *)
Definition truthy (v : value num) : bool :=
  match v with
  | None => false
  | Some JNull => false
  | Some (JBool b) => b
  | Some (JNum n) => Number_toBoolean n
  | Some (JStr s) => nonEmpty s
  | Some (JArr _) => true
  | Some (JObj _) => true
  end.

Definition isArray (v : value num) : bool :=
  match v with Some (JArr _) => true | _ => false end.

(** [typeof v === 'string'] *)
Definition isString (v : value num) : bool :=
  match v with Some (JStr _) => true | _ => false end.

(** Own property [k] of an object. *)
Fixpoint own (props : list (string * json num)) (k : string) : value num :=
  match props with
  | [] => None
  | (k', v) :: r => if String.eqb k' k then Some v else own r k
  end.

(** [v.k] for a property name [k] that no prototype of a JSON value defines
    (all the names [main.js] reads are such: [id], [model], [name], [data],
    [models], [choices], [output], [result], [message], [content], [text],
    [delta]). Reading a property of [null] or [undefined] throws. *)
Definition get (v : value num) (k : string) : result (value num) :=
  match v with
  | None =>
      Throw (TypeError ("Cannot read properties of undefined (reading '" ++ k ++ "')"))
  | Some JNull =>
      Throw (TypeError ("Cannot read properties of null (reading '" ++ k ++ "')"))
  | Some (JObj props) => Ok (own props k)
  | Some _ => Ok None
  end.

(** [v[i]] on an array. *)
Definition item (v : value num) (i : nat) : value num :=
  match v with
  | Some (JArr items) => nth_error items i
  | _ => None
  end.

(** [a || b] and [a && b]; the right operand is a statement that may throw,
    and is not run when the left one decides. *)
Definition js_or (a : value num) (b : result (value num)) : result (value num) :=
  if truthy a then Ok a else b.

Definition js_and (a : value num) (b : result (value num)) : result (value num) :=
  if truthy a then b else Ok a.

(** ToString. An array is joined with commas, [null] elements giving the
    empty string. An object goes through [Object.prototype.toString] unless
    it owns a [toString] key: the value of that key is no function, nor is
    what [valueOf] gives a primitive, and the conversion throws. *)
Fixpoint ToString (j : json num) : result string :=
  match j with
  | JNull => Ok "null"
  | JBool true => Ok "true"
  | JBool false => Ok "false"
  | JNum n => Ok (Number_toString n)
  | JStr s => Ok s
  | JArr items =>
      parts <- (fix each (xs : list (json num)) : result (list string) :=
                  match xs with
                  | [] => Ok []
                  | x :: r =>
                      s <- match x with
                           | JNull => Ok ""
                           | _ => ToString x
                           end ;;
                      ss <- each r ;;
                      Ok (s :: ss)
                  end) items ;;
      Ok (join "," parts)
  | JObj props =>
      match own props "toString" with
      | Some _ => Throw (TypeError "Cannot convert object to primitive value")
      | None => Ok "[object Object]"
      end
  end.

(** What [Array.prototype.join] makes of one element: [undefined] and
    [null] give the empty string. *)
Definition join_item (v : value num) : result string :=
  match v with
  | None => Ok ""
  | Some JNull => Ok ""
  | Some j => ToString j
  end.

(** ToString of a value that may be [undefined]. *)
Definition ToString_value (v : value num) : result string :=
  match v with
  | None => Ok "undefined"
  | Some j => ToString j
  end.

(** *** [JSON.stringify] *)

Definition hexDigit (n : nat) : ascii :=
  if Nat.ltb n 10 then ascii_of_nat (48 + n) else ascii_of_nat (87 + n).

(** QuoteJSONString, one code unit. *)
Definition quoteChar (c : ascii) : string :=
  let n := nat_of_ascii c in
  let esc (x : string) := String BACKSLASH x in
  if Nat.eqb n 34 then esc (String DQUOTE "")
  else if Nat.eqb n 92 then esc (String BACKSLASH "")
  else if Nat.eqb n 8 then esc "b"
  else if Nat.eqb n 12 then esc "f"
  else if Nat.eqb n 10 then esc "n"
  else if Nat.eqb n 13 then esc "r"
  else if Nat.eqb n 9 then esc "t"
  else if Nat.ltb n 32 then
    esc ("u00" ++ String (hexDigit (Nat.div n 16)) (String (hexDigit (Nat.modulo n 16)) ""))
  else String c "".

Fixpoint quoteChars (s : string) : string :=
  match s with
  | EmptyString => ""
  | String c r => quoteChar c ++ quoteChars r
  end.

Definition quote (s : string) : string :=
  String DQUOTE (quoteChars s ++ String DQUOTE "").

(** SerializeJSONProperty with [gap] the indentation unit and [indent] the
    current indentation; no replacer, and no value is [undefined]. A Number
    that is not finite ([JSON.parse] gives [Infinity] for [1e999]) is
    written [null]. *)
Fixpoint serialize (gap indent : string) (j : json num) : string :=
  let stepback := indent in
  let indent := indent ++ gap in
  let wrap (open close : string) (partial : list string) : string :=
    match partial with
    | [] => open ++ close
    | _ =>
        if nonEmpty gap then
          open ++ String LF indent
               ++ join ("," ++ String LF indent) partial
               ++ String LF stepback ++ close
        else open ++ join "," partial ++ close
    end in
  match j with
  | JNull => "null"
  | JBool true => "true"
  | JBool false => "false"
  | JNum n => if Number_isFinite n then Number_toString n else "null"
  | JStr s => quote s
  | JArr items => wrap "[" "]" (map (serialize gap indent) items)
  | JObj props =>
      wrap "{" "}"
           (map (fun kv =>
                   match kv with
                   | (k, v) =>
                       quote k ++ ":" ++ (if nonEmpty gap then " " else "")
                             ++ serialize gap indent v
                   end) props)
  end.

(** [JSON.stringify(j)] *)
Definition stringify (j : json num) : string := serialize "" "" j.

(** [JSON.stringify(j, null, 2)] *)
Definition stringify_pretty (j : json num) : string := serialize "  " "" j.

(** The elements of an array value. *)
Definition elements (v : value num) : list (json num) :=
  match v with
  | Some (JArr items) => items
  | _ => []
  end.

(** [Object.keys(j)]: own enumerable string keys; a string has its indices,
    a number or a boolean has none. *)
Definition Object_keys (j : json num) : result (list string) :=
  let indices (n : nat) := map (fun i => Z_toString (Z.of_nat i)) (seq 0 n) in
  match j with
  | JNull => Throw (TypeError "Cannot convert undefined or null to object")
  | JBool _ => Ok []
  | JNum _ => Ok []
  | JStr s => Ok (indices (String.length s))
  | JArr items => Ok (indices (List.length items))
  | JObj props => Ok (map fst props)
  end.

(* ================================================================= *)
(** ** [getApiKey] (lines 56-62) *)

(** The two places a key is looked for: [window.OPENAI_KEY], a string when
    set, and the value of [input#apiKey] when the page has that element. *)
Record credentials := mkCredentials {
  OPENAI_KEY : option string;
  apiKeyInput : option string
}.

Definition getApiKey (c : credentials) : option string :=
  let fromInput :=
    match apiKeyInput c with
    | Some v => if nonEmpty v && nonEmpty (trim v) then Some (trim v) else None
    | None => None
    end in
  let globalKey := OPENAI_KEY c in
  match globalKey with
  | Some g => if nonEmpty g && nonEmpty (trim g) then Some (trim g) else fromInput
  | None => fromInput
  end.

(* ================================================================= *)
(** ** The page *)

(** What an element of the message list holds: text set through
    [textContent], which the browser shows as it is, or markup set through
    [innerHTML], which the browser parses as HTML; [touched s now] is markup
    [s] set through [innerHTML] in which the script has since removed or
    overwritten elements, [now] being the elements it holds at present. *)
Inductive nodeContent : Type :=
| textContent (s : string)
| innerHTML (s : string)
| touched (s : string) (now : list node).

(** A [div] of the message list: its [className], its [id] ([""] when none
    was set) and its content. *)
Record element := mkElement {
  className : string;
  id_attr : string;
  inner : nodeContent
}.

(** [messagesEl]: the children of [#messages], or [None] when the page has
    no such element. *)
Definition messagesEl_t : Type := option (list element).

(** [appendMessage(text, who, rawHtml)] (lines 36-48); without [#messages]
    it only warns on the console. [text] is a string at every call but one,
    where it is the assistant text, which [textContent] turns into a
    string. *)
Definition appendMessage (text : string) (who : string) (rawHtml : bool)
    (messagesEl : messagesEl_t) : messagesEl_t :=
  match messagesEl with
  | None => None
  | Some kids =>
      let wrapper :=
        {| className := "msg " ++ (if String.eqb who "user" then "user" else "bot");
           id_attr := "";
           inner := if rawHtml then innerHTML text else textContent text |} in
      Some (kids ++ [wrapper])%list
  end.

(** The elements inside a content, in document order. *)
Definition elements_in (c : nodeContent) : list node :=
  match c with
  | textContent _ => []
  | innerHTML s => parseFragment s
  | touched _ now => now
  end.

(** The content once the script has changed the elements inside it by
    [g]. *)
Definition touch (g : list node -> list node) (c : nodeContent) : nodeContent :=
  match c with
  | textContent s => textContent s
  | innerHTML s => touched s (g (parseFragment s))
  | touched s now => touched s (g now)
  end.

(** [e], or an element inside it, has the id [id]. *)
Definition has_id (id : string) (e : element) : bool :=
  String.eqb (id_attr e) id || existsb (node_has id) (elements_in (inner e)).

(** The message list holds an element with the id [id], among its elements
    or inside one. *)
Definition listed_has (id : string) (messagesEl : messagesEl_t) : bool :=
  match messagesEl with
  | None => false
  | Some kids => existsb (has_id id) kids
  end.

(** [t.remove()] for the first element [t] of the message list, in document
    order, that has the id [id]: an element of the list, or an element
    inside one. *)
Definition remove_by_id (id : string) (kids : list element) : list element :=
  update_first (has_id id)
    (fun e =>
       if String.eqb (id_attr e) id then None
       else Some {| className := className e; id_attr := id_attr e;
                    inner := touch (update_first (node_has id) (node_remove id))
                                   (inner e) |})
    kids.

(** [t.textContent = text] for the first element [t] of the message list
    that has the id [id] *)
Definition set_textContent (id text : string) (kids : list element) : list element :=
  update_first (has_id id)
    (fun e =>
       Some (if String.eqb (id_attr e) id
             then {| className := className e; id_attr := id_attr e;
                     inner := textContent text |}
             else {| className := className e; id_attr := id_attr e;
                     inner := touch (update_first (node_has id)
                                       (fun x => Some (node_set_text id text x)))
                                    (inner e) |}))
    kids.

(** The document as a lookup by id goes through it: the message list, and
    the elements of the rest of the page that come [earlier] and [later]
    than the list in document order, such as the options that [fetchModels]
    writes into [#modelSelect]. The elements that contain [#messages] belong
    to the static page and are taken to have no id that starts with
    [thinking-]. *)
Record document := mkDocument {
  earlier : list node;
  listed : messagesEl_t;
  later : list node
}.

Definition set_listed (m : messagesEl_t) (d : document) : document :=
  {| earlier := earlier d; listed := m; later := later d |}.

(** [document.getElementById(id)], as a test: does the call give an element,
    or [null]? *)
Definition getElementById (id : string) (d : document) : bool :=
  existsb (node_has id) (earlier d) || listed_has id (listed d)
  || existsb (node_has id) (later d).

(** [t.remove()] for [t = document.getElementById(id)], the first element
    of the document that has the id. *)
Definition remove_found (id : string) (d : document) : document :=
  if existsb (node_has id) (earlier d) then
    {| earlier := update_first (node_has id) (node_remove id) (earlier d);
       listed := listed d; later := later d |}
  else if listed_has id (listed d) then
    set_listed (match listed d with
                | Some kids => Some (remove_by_id id kids)
                | None => None
                end) d
  else
    {| earlier := earlier d; listed := listed d;
       later := update_first (node_has id) (node_remove id) (later d) |}.

(** [t.textContent = text] for [t = document.getElementById(id)] *)
Definition set_found_text (id text : string) (d : document) : document :=
  if existsb (node_has id) (earlier d) then
    {| earlier := update_first (node_has id)
                    (fun x => Some (node_set_text id text x)) (earlier d);
       listed := listed d; later := later d |}
  else if listed_has id (listed d) then
    set_listed (match listed d with
                | Some kids => Some (set_textContent id text kids)
                | None => None
                end) d
  else
    {| earlier := earlier d; listed := listed d;
       later := update_first (node_has id)
                  (fun x => Some (node_set_text id text x)) (later d) |}.

(* ================================================================= *)
(** ** [fetchModels], from the parsed body to the model list (lines 90-107) *)

(** [m => m.id || m.model || m.name || String(m)] *)
Definition model_of_item (m : json num) : result (value num) :=
  a <- get (Some m) "id" ;;
  js_or a (b <- get (Some m) "model" ;;
           js_or b (c <- get (Some m) "name" ;;
                    js_or c (s <- ToString m ;; Ok (Some (JStr s))))).

(** [m => m.id || m.name || m.model || JSON.stringify(m)] *)
Definition model_of_entry (m : json num) : result (value num) :=
  a <- get (Some m) "id" ;;
  js_or a (b <- get (Some m) "name" ;;
           js_or b (c <- get (Some m) "model" ;;
                    js_or c (Ok (Some (JStr (stringify m)))))).

(** Lines 94-101: the value of [models] before the emptiness test. *)
Definition fetchModels_models (j : json num) : result (list (value num)) :=
  if isArray (Some j) then mapM model_of_item (elements (Some j))
  else
    data <- get (Some j) "data" ;;
    if isArray data then mapM model_of_entry (elements data)
    else
      models <- get (Some j) "models" ;;
      if isArray models then mapM model_of_entry (elements models)
      else
        keys <- Object_keys j ;;
        Ok (firstn 20 (map (fun k => Some (JStr k)) keys)).

Definition fallback_models : list (value num) :=
  [Some (JStr "gpt-4o-mini"); Some (JStr "gpt-4o"); Some (JStr "gpt-3.5-turbo")].

Definition fallback_notice : string :=
  "No models found in response; using fallback list.".

(** Lines 94-107: the final [models] and the message list. *)
Definition fetchModels_normalize (j : json num) (messagesEl : messagesEl_t)
  : result (list (value num) * messagesEl_t) :=
  models <- fetchModels_models j ;;
  if Nat.eqb (List.length models) 0
  then Ok (fallback_models, appendMessage fallback_notice "bot" false messagesEl)
  else Ok (models, messagesEl).

(* ================================================================= *)
(** ** [sendChat]: the request body (lines 150-157) *)

Record message_t := mkMessage { role : string; content : string }.

(** The object literal [payload]; [model] is [undefined] when the page has
    no [#modelSelect]. *)
Record payload_t := mkPayload {
  model : option string;
  messages : list message_t;
  temperature : num
}.

Definition payload (model : option string) (temperature : num)
    (systemPrompt userText : string) : payload_t :=
  {| model := model;
     messages := ((if nonEmpty systemPrompt
                   then [ {| role := "system"; content := systemPrompt |} ]
                   else []) ++ [ {| role := "user"; content := userText |} ])%list;
     temperature := temperature |}.

(* ================================================================= *)
(** ** [sendChat]: the assistant text (lines 178-189) *)

(** Line 181:
    [(c.message && c.message.content) || c.text || (c.delta && c.delta.content) || null] *)
Definition choice_text (c : value num) : result (value num) :=
  m <- get c "message" ;;
  mc <- js_and m (get m "content") ;;
  js_or mc (t <- get c "text" ;;
            js_or t (d <- get c "delta" ;;
                     dc <- js_and d (get d "content") ;;
                     js_or dc (Ok (Some JNull)))).

(** Line 184: [x => x.content || JSON.stringify(x)] *)
Definition output_item (x : json num) : result (value num) :=
  c <- get (Some x) "content" ;;
  js_or c (Ok (Some (JStr (stringify x)))).

(** Line 184, for a truthy [j.output]. *)
Definition output_text (output : value num) : result (value num) :=
  if isString output then Ok output
  else if isArray output then
    parts <- mapM output_item (elements output) ;;
    lines <- mapM join_item parts ;;
    Ok (Some (JStr (join (String LF "") lines)))
  else
    Ok (match output with
        | Some o => Some (JStr (stringify o))
        | None => None
        end).

(** Lines 178-189: the value of [assistantText] for the parsed body [j]. *)
Definition assistantText (j : json num) : result (value num) :=
  choices <- get (Some j) "choices" ;;
  if truthy choices && isArray choices && truthy (item choices 0) then
    let c := item choices 0 in
    choice_text c
  else
    output <- get (Some j) "output" ;;
    if truthy output then output_text output
    else
      r <- get (Some j) "result" ;;
      if truthy r then Ok r
      else Ok (Some (JStr (stringify_pretty j))).

(* ================================================================= *)
(** ** [sendChat]: the page, the calls in flight and the event loop *)

Definition BASE : string := "http://116.72.105.227:1234/v1".

(** The elements [main.js] looks up when it loads, each [None] when the
    page lacks it, and the global key. An input is held by its [value];
    [tempEl] by [parseFloat(tempEl.value)]. *)
Record page := mkPage {
  keys : credentials;
  modelSelect : option string;
  tempEl : option num;
  systemPromptEl : option string;
  promptEl : option string;
  messagesEl : messagesEl_t
}.

(** A call of [fetch] made by [sendChat] (lines 159-167). *)
Record request := mkRequest {
  url : string;
  method : string;
  Authorization : string;
  body : payload_t
}.

(** The page together with what [sendChat] did to the outside: the [alert]
    boxes shown, the [fetch] calls made, the [thinkingId] of every call of
    [sendChat] that waits for its [fetch], and the exceptions that escaped a
    call of [sendChat]; [page_earlier] and [page_later] are the elements of
    the rest of the page, as in [document]. *)
Record world := mkWorld {
  pg : page;
  page_earlier : list node;
  page_later : list node;
  alerts : list string;
  requests : list request;
  pending : list string;
  unhandled : list exn
}.

Definition set_messagesEl (m : messagesEl_t) (p : page) : page :=
  {| keys := keys p; modelSelect := modelSelect p; tempEl := tempEl p;
     systemPromptEl := systemPromptEl p; promptEl := promptEl p;
     messagesEl := m |}.

Definition set_prompt (v : string) (p : page) : page :=
  {| keys := keys p; modelSelect := modelSelect p; tempEl := tempEl p;
     systemPromptEl := systemPromptEl p;
     promptEl := match promptEl p with Some _ => Some v | None => None end;
     messagesEl := messagesEl p |}.

Definition alert (msg : string) (w : world) : world :=
  {| pg := pg w; page_earlier := page_earlier w; page_later := page_later w;
     alerts := (alerts w ++ [msg])%list; requests := requests w;
     pending := pending w; unhandled := unhandled w |}.

Definition missing_prompt_alert : string :=
  "No prompt textarea found (#prompt).".

Definition missing_key_alert : string :=
  "API key not found. Provide window.OPENAI_KEY in HTML or an input#apiKey.".

(** Line 141: ['thinking-' + Date.now()] *)
Definition thinkingId (now : Z) : string := "thinking-" ++ Z_toString now.

(** Lines 142-145 *)
Definition thinkingEl (now : Z) : element :=
  {| className := "msg bot"; id_attr := thinkingId now;
     inner := textContent "Thinking…" |}.

(** [sendChat()] up to its first [await] (lines 121-167); [now] is what
    [Date.now()] returns. *)
Definition sendChat (now : Z) (w : world) : world :=
  match promptEl (pg w) with
  | None => alert missing_prompt_alert w
  | Some v =>
      let userText := trim v in
      if negb (nonEmpty userText) then w
      else
        match getApiKey (keys (pg w)) with
        | None => alert missing_key_alert w
        | Some key =>
            let model := modelSelect (pg w) in
            let temperature :=
              match tempEl (pg w) with Some t => t | None => Number_0_7 end in
            let systemPrompt :=
              match systemPromptEl (pg w) with
              | Some s => if nonEmpty s then s else ""
              | None => ""
              end in
            let shown := appendMessage userText "user" false (messagesEl (pg w)) in
            match shown with
            | None =>
                (* messagesEl.appendChild(thinkingEl) on null *)
                {| pg := set_prompt "" (pg w);
                   page_earlier := page_earlier w; page_later := page_later w;
                   alerts := alerts w; requests := requests w;
                   pending := pending w;
                   unhandled :=
                     (unhandled w ++
                        [TypeError "Cannot read properties of null (reading 'appendChild')"])%list |}
            | Some kids =>
                {| pg := set_messagesEl (Some (kids ++ [thinkingEl now])%list)
                           (set_prompt "" (pg w));
                   page_earlier := page_earlier w; page_later := page_later w;
                   alerts := alerts w;
                   requests :=
                     (requests w ++
                        [ {| url := BASE ++ "/chat/completions";
                             method := "POST";
                             Authorization := key;
                             body := payload model temperature systemPrompt userText |} ])%list;
                   pending := (pending w ++ [thinkingId now])%list;
                   unhandled := unhandled w |}
            end
        end
  end.

(** What [await fetch(...)] gives back: a rejection, or a response with its
    [status], what [await res.text()] gives and what [await res.json()]
    gives, each a value or the exception the promise rejects with. *)
Record response := mkResponse {
  status : Z;
  text : result string;
  parsed : result (json num)
}.

Inductive fetched : Type :=
| Rejected (e : exn)
| Resolved (res : response).

(** [res.ok] *)
Definition ok (res : response) : bool :=
  (Z.leb 200 (status res) && Z.leb (status res) 299)%bool.

(** Lines 195-208: showing [assistantText]. The result is the message list
    and the exception thrown, if any. *)
Definition show_assistant (a : value num) (m : messagesEl_t)
  : messagesEl_t * option exn :=
  let as_html :=
    match (if truthy a then a else Some (JStr "")) with
    | Some (JStr s) =>
        let html := replace_newlines s in
        match m with
        | Some kids =>
            (Some (kids ++ [ {| className := "msg bot"; id_attr := "";
                                inner := innerHTML html |} ])%list, None)
        | None =>
            (None, Some (TypeError "Cannot read properties of null (reading 'appendChild')"))
        end
    | _ => (m, Some (TypeError "(assistantText || '').replace is not a function"))
    end in
  if truthy a then
    (* the test of line 197 turns [assistantText] into a string *)
    match ToString_value a with
    | Throw e => (m, Some e)
    | Ok s =>
        if test_script s then (appendMessage s "bot" false m, None) else as_html
    end
  else as_html.

(** The [try] block after [await fetch] (lines 169-208). The result is the
    document and the exception thrown, if any. *)
Definition sendChat_try (id : string) (f : fetched) (d : document)
  : document * option exn :=
  match f with
  | Rejected e => (d, Some e)
  | Resolved res =>
      if negb (ok res) then
        match text res with
        | Throw e => (d, Some e)
        | Ok txt =>
            (d, Some (Error ("Chat failed: " ++ Z_toString (status res) ++ " " ++ txt)))
        end
      else
        match parsed res with
        | Throw e => (d, Some e)
        | Ok j =>
            match assistantText j with
            | Throw e => (d, Some e)
            | Ok a =>
                let d1 := if getElementById id d then remove_found id d else d in
                let shown := show_assistant a (listed d1) in
                (set_listed (fst shown) d1, snd shown)
            end
        end
  end.

Definition network_hint : string :=
  "Network/CORS error detected. Ensure http://116.72.105.227:1234 allows CORS from this origin and that the host is reachable.".

(** The [catch] block (lines 209-220). *)
Definition sendChat_catch (id : string) (err : exn) (d : document) : document :=
  let line := "Error: " ++ message_or_err err in
  let d1 := if getElementById id d
            then set_found_text id line d
            else set_listed (appendMessage line "bot" false (listed d)) d in
  if nonEmpty (message err) && test_network (message err)
  then set_listed (appendMessage network_hint "bot" false (listed d1)) d1
  else d1.

(** [sendChat()] from [await fetch] to its end, for the call whose
    placeholder is [id]. *)
Definition sendChat_resume (id : string) (f : fetched) (d : document) : document :=
  match sendChat_try id f d with
  | (d1, None) => d1
  | (d1, Some err) => sendChat_catch id err d1
  end.

(** The document of a page. *)
Definition document_of (w : world) : document :=
  {| earlier := page_earlier w; listed := messagesEl (pg w);
     later := page_later w |}.

(** What the event loop runs: the user edits [#prompt]; a click on
    [#sendBtn] or Enter in [#prompt] calls [sendChat]; the [fetch] of the
    [n]-th waiting call settles and that call resumes. *)
Inductive event : Type :=
| Edit (v : string)
| Send (now : Z)
| Settle (n : nat) (f : fetched).

Fixpoint drop_nth {A : Type} (n : nat) (xs : list A) : list A :=
  match n, xs with
  | _, [] => []
  | O, _ :: r => r
  | S k, x :: r => x :: drop_nth k r
  end.

Definition step (w : world) (e : event) : world :=
  match e with
  | Edit v =>
      {| pg := set_prompt v (pg w);
         page_earlier := page_earlier w; page_later := page_later w;
         alerts := alerts w; requests := requests w;
         pending := pending w; unhandled := unhandled w |}
  | Send now => sendChat now w
  | Settle n f =>
      match nth_error (pending w) n with
      | None => w
      | Some id =>
          let d := sendChat_resume id f (document_of w) in
          {| pg := set_messagesEl (listed d) (pg w);
             page_earlier := earlier d; page_later := later d;
             alerts := alerts w; requests := requests w;
             pending := drop_nth n (pending w);
             unhandled := unhandled w |}
      end
  end.

Definition run (w : world) (es : list event) : world := fold_left step es w.

End Values.

Arguments payload_t num : clear implicits.
Arguments page num : clear implicits.
Arguments request num : clear implicits.
Arguments world num : clear implicits.
Arguments response num : clear implicits.
Arguments fetched num : clear implicits.
Arguments event num : clear implicits.

(* ================================================================= *)
(** ** A Number type for worked examples *)

(** A Number held by the text Number::toString prints for it. *)
Record numeral := Numeral { digits : string }.

#[global] Instance numeral_Number : Number numeral := {
  Number_toBoolean n :=
    negb (String.eqb (digits n) "0" || String.eqb (digits n) "NaN");
  Number_toString n := digits n;
  Number_isFinite n :=
    negb (String.eqb (digits n) "Infinity" || String.eqb (digits n) "-Infinity"
          || String.eqb (digits n) "NaN");
  Number_0_7 := Numeral "0.7"
}.

(** The parser of the worked examples, whose fragments hold text and no
    element. *)
#[global] Instance text_fragments : Parser := {
  parseFragment _ := []
}.

(** The JSON values of the worked examples. *)
Definition J : Type := json numeral.

(* ================================================================= *)
(** ** What the claims speak of *)

(** Where the HTML tokenizer takes a [<] of a fragment for the start of
    markup and not for text: when an ASCII letter (a start tag), [/] (an end
    tag), [!] (a comment or declaration) or [?] follows it. *)
Definition opensTag (rest : string) : bool :=
  match rest with
  | EmptyString => false
  | String d _ =>
      let n := nat_of_ascii d in
      (Nat.leb 65 n && Nat.leb n 90) || (Nat.leb 97 n && Nat.leb n 122)
      || Nat.eqb n 47 || Nat.eqb n 33 || Nat.eqb n 63
  end.

(** The number of tags the parser reads in the fragment [h]. *)
Fixpoint tag_starts (h : string) : nat :=
  match h with
  | EmptyString => 0
  | String c r =>
      (if Ascii.eqb c "<"%char && opensTag r then 1 else 0) + tag_starts r
  end.

Fixpoint newlines (s : string) : nat :=
  match s with
  | EmptyString => 0
  | String c r => (if Ascii.eqb c LF then 1 else 0) + newlines r
  end.

(** The [div] of class [msg bot] that shows an answer. *)
Definition botEl (c : nodeContent) : element :=
  {| className := "msg bot"; id_attr := ""; inner := c |}.

Section Claims.
Context {num : Type} `{Number num} `{Parser}.

(** The safety filter as the specification words it, for the assistant
    text [text]: a text that matches the script pattern is shown as plain
    text; any other text is shown as HTML in which the line breaks put in
    for its newlines are the only tags. *)
Definition filtered_as_specified (text : string) : Prop :=
  forall kids : list element,
    exists c : nodeContent,
      show_assistant (Some (JStr text)) (Some kids) = (Some (kids ++ [botEl c])%list, None)
      /\ (if test_script text
          then c = textContent text
          else exists h, c = innerHTML h /\ tag_starts h = newlines text).

(** [v.k] read as a field that may be absent: [undefined] unless [v] is an
    object that owns [k]. *)
Definition field (v : value num) (k : string) : value num :=
  match v with
  | Some (JObj props) => own props k
  | _ => None
  end.

(** "[a], else [b], else ..., else [d]": the first truthy candidate, [d]
    when there is none. *)
Fixpoint first_truthy (candidates : list (value num)) (d : value num) : value num :=
  match candidates with
  | [] => d
  | v :: r => if truthy v then v else first_truthy r d
  end.

(** An element of [data] or [models] in the words of the specification:
    its [id], else [name], else [model], else its JSON text. *)
Definition entry_id (m : json num) : value num :=
  first_truthy [field (Some m) "id"; field (Some m) "name"; field (Some m) "model"]
               (Some (JStr (stringify m))).

(** The line an element of an [output] array gives, in the words of the
    specification: its [content], else its JSON text. *)
Definition output_line (x : json num) : value num :=
  first_truthy [field (Some x) "content"] (Some (JStr (stringify x))).

(** The test of line 179. *)
Definition choices_match (j : json num) : bool :=
  let choices := field (Some j) "choices" in
  truthy choices && isArray choices && truthy (item choices 0).

(** Extraction gives a text. *)
Definition gives_text (j : json num) : Prop :=
  exists s : string, assistantText j = Ok (Some (JStr s)).

(** The first branch as the specification words it: a non-empty [choices]
    sequence wins, and the text is what its element 0 gives, or nothing. *)
Definition choices_first (j : json num) : Prop :=
  forall (c : json num) (rest : list (json num)),
    field (Some j) "choices" = Some (JArr (c :: rest)) ->
    assistantText j = choice_text (Some c) \/ assistantText j = Ok (Some JNull).

(** Single flight: whatever happens, at most one call of [sendChat] waits
    for its response. *)
Definition single_flight (w : world num) : Prop :=
  forall es : list (event num), (List.length (pending (run w es)) <= 1)%nat.

(** A key source that is absent, or blank once trimmed. *)
Definition blank (o : option string) : Prop :=
  match o with
  | None => True
  | Some s => trim s = ""
  end.

Definition no_credential (c : credentials) : Prop :=
  blank (OPENAI_KEY c) /\ blank (apiKeyInput c).

(** What scenario 6 asks of a send made at [w]. *)
Definition missing_key_surfaced (now : Z) (w : world num) : Prop :=
  no_credential (keys (pg w)) ->
  alerts (sendChat now w) = (alerts w ++ [missing_key_alert])%list
  /\ requests (sendChat now w) = requests w
  /\ pending (sendChat now w) = pending w
  /\ messagesEl (pg (sendChat now w)) = messagesEl (pg w).

(** The handles of the calls in flight are pairwise distinct. *)
Definition handles_distinct (w : world num) (es : list (event num)) : Prop :=
  NoDup (pending (run w es)).


(** A send at [w] passes the three tests of lines 122-132 and finds the
    message list. *)
Definition can_send (w : world num) : Prop :=
  exists (v key : string) (kids : list element),
    promptEl (pg w) = Some v
    /\ nonEmpty (trim v) = true
    /\ getApiKey (keys (pg w)) = Some key
    /\ messagesEl (pg w) = Some kids.

(** The last element of the message list. *)
Definition last_child (w : world num) : option element :=
  match messagesEl (pg w) with
  | Some kids => List.last (map Some kids) None
  | None => None
  end.

(** Scenarios 4, 5 and 1 of the specification. *)
Definition hi_body : json num :=
  JObj [("choices", JArr [JObj [("message", JObj [("content", JStr "Hi")])]])].

Definition ok_body : json num := JObj [("result", JStr "ok")].

Definition m1_m2_body : json num :=
  JObj [("data", JArr [JObj [("id", JStr "m1")]; JObj [("id", JStr "m2")]])].

End Claims.

(** An element whose content was set through [textContent]. *)
Definition plain (e : element) : Prop := exists s : string, inner e = textContent s.

(** *** Worked inputs *)

Definition page0 : page numeral :=
  {| keys := {| OPENAI_KEY := Some "sk-test"; apiKeyInput := None |};
     modelSelect := Some "gpt-4o";
     tempEl := Some (Numeral "0.7");
     systemPromptEl := Some "";
     promptEl := Some "";
     messagesEl := Some [] |}.

(** A freshly loaded page with a key. *)
Definition session0 : world numeral :=
  {| pg := page0; page_earlier := []; page_later := [];
     alerts := []; requests := []; pending := []; unhandled := [] |}.

(** The same page once a message is typed. *)
Definition session_hello : world numeral := step session0 (Edit "hello").

(** Two sends, a new message typed in between, and no response yet. *)
Definition two_sends (now1 now2 : Z) : list (event numeral) :=
  [Edit "first"; Send now1; Edit "second"; Send now2].

(** A response of status 500 whose body carries markup. *)
Definition error_500 : fetched numeral :=
  Resolved {| status := 500;
              text := Ok "<b>overloaded</b>";
              parsed := Throw (mkExn "SyntaxError" "Unexpected token <") |}.

(** The same page without any key and with an empty prompt. *)
Definition keyless0 : world numeral :=
  {| pg := {| keys := {| OPENAI_KEY := None; apiKeyInput := Some "  " |};
              modelSelect := Some "gpt-4o";
              tempEl := Some (Numeral "0.7");
              systemPromptEl := Some "";
              promptEl := Some "";
              messagesEl := Some [] |};
     page_earlier := []; page_later := [];
     alerts := []; requests := []; pending := []; unhandled := [] |}.

(** The same page without any key and with a message typed. *)
Definition keyless_hello : world numeral :=
  {| pg := {| keys := {| OPENAI_KEY := None; apiKeyInput := Some "  " |};
              modelSelect := Some "gpt-4o";
              tempEl := Some (Numeral "0.7");
              systemPromptEl := Some "";
              promptEl := Some "hello";
              messagesEl := Some [] |};
     page_earlier := []; page_later := [];
     alerts := []; requests := []; pending := []; unhandled := [] |}.

(* ================================================================= *)
(** ** [fetchModels] as a whole (lines 64-119) *)

(** [modelSelect], as far as [fetchModels] writes it: its [disabled] flag
    and its [innerHTML]. *)
Record select_el := mkSelect {
  disabled : bool;
  select_html : string
}.

(** The call of [fetch] made by [fetchModels] (lines 77-83). *)
Record models_request := mkModelsRequest {
  models_url : string;
  models_method : string;
  models_Authorization : string
}.

Definition loading_option : string := "<option>Loading models…</option>".

Definition provide_key_option : string :=
  "<option>Provide API key (window.OPENAI_KEY or #apiKey)</option>".

Definition no_key_notice : string :=
  "No API key found. Provide window.OPENAI_KEY in HTML or an input#apiKey.".

Definition error_option : string := "<option>Error loading models</option>".

Definition cors_notice : string :=
  "If you see a CORS or network error, ensure the provider host allows browser requests from this origin.".

Section CatalogFetch.
Context {num : Type} `{Number num} `{Parser}.

(** [fetchModels()] up to its first [await] (lines 64-83): the select, the
    message list and the request made, if any. When no request is made the
    call is over, [finally] included. *)
Definition fetchModels (c : credentials) (sel : option select_el) (m : messagesEl_t)
  : option select_el * messagesEl_t * option models_request :=
  match sel with
  | None => (None, m, None)
  | Some _ =>
      match getApiKey c with
      | None =>
          (Some {| disabled := false; select_html := provide_key_option |},
           appendMessage no_key_notice "bot" false m,
           None)
      | Some key =>
          (Some {| disabled := true; select_html := loading_option |},
           m,
           Some {| models_url := BASE ++ "/models";
                   models_method := "GET";
                   models_Authorization := key |})
      end
  end.

(** Line 110: one [<option>] of the select; the template turns the model
    into a string. *)
Definition option_html (m : value num) : result string :=
  s <- ToString_value m ;;
  Ok ("<option value=" ++ String DQUOTE s ++ String DQUOTE ">" ++ s ++ "</option>").

(** The [try] block after [await fetch] (lines 85-110): the message list
    when the block ends, and the new [innerHTML] of the select or the
    exception thrown. *)
Definition fetchModels_try (f : fetched num) (m : messagesEl_t)
  : messagesEl_t * result string :=
  match f with
  | Rejected e => (m, Throw e)
  | Resolved res =>
      if negb (ok res) then
        match text res with
        | Throw e => (m, Throw e)
        | Ok txt =>
            (m, Throw (Error ("Models fetch failed: " ++ Z_toString (status res)
                               ++ " " ++ txt)))
        end
      else
        match parsed res with
        | Throw e => (m, Throw e)
        | Ok j =>
            match fetchModels_normalize j m with
            | Throw e => (m, Throw e)
            | Ok (models, m') =>
                (m', options <- mapM option_html models ;; Ok (join "" options))
            end
        end
  end.

(** [fetchModels()] from [await fetch] to its end, [catch] and [finally]
    included (lines 85-118). *)
Definition fetchModels_resume (f : fetched num) (m : messagesEl_t)
  : select_el * messagesEl_t :=
  match fetchModels_try f m with
  | (m', Ok html) => ({| disabled := false; select_html := html |}, m')
  | (m', Throw err) =>
      ({| disabled := false; select_html := error_option |},
       appendMessage cors_notice "bot" false
         (appendMessage ("Error fetching models: " ++ message_or_err err) "bot" false m'))
  end.

(** *** What the further properties speak of *)

(** The array [fetchModels] maps, if the body has one. *)
Definition mapped_array (j : json num) : list (json num) :=
  if isArray (Some j) then elements (Some j)
  else if isArray (field (Some j) "data") then elements (field (Some j) "data")
  else if isArray (field (Some j) "models") then elements (field (Some j) "models")
  else [].

(** A request of [sendChat] as the provider should get it: to the chat
    endpoint, with a key and a user text that are trimmed and not empty, and
    for messages the user message, alone or after one system message whose
    prompt is not empty. *)
Definition well_formed (r : request num) : Prop :=
  url r = BASE ++ "/chat/completions"
  /\ method r = "POST"
  /\ nonEmpty (Authorization r) = true
  /\ trim (Authorization r) = Authorization r
  /\ exists userText : string,
       nonEmpty userText = true
       /\ trim userText = userText
       /\ (messages (body r) = [ {| role := "user"; content := userText |} ]
           \/ exists systemPrompt : string,
                nonEmpty systemPrompt = true
                /\ messages (body r)
                   = [ {| role := "system"; content := systemPrompt |};
                       {| role := "user"; content := userText |} ]).

(** The number of calls of [sendChat] in a run. *)
Definition sends (es : list (event num)) : nat :=
  List.length (filter (fun e => match e with Send _ => true | _ => false end) es).

End CatalogFetch.

(** Line 138: the element that shows the user message typed as [v]. *)
Definition userEl (v : string) : element :=
  {| className := "msg user"; id_attr := ""; inner := textContent (trim v) |}.

(** An element that holds no markup matching the script pattern. *)
Definition script_free (e : element) : Prop :=
  match inner e with
  | textContent _ => True
  | innerHTML h => test_script h = false
  | touched h _ => test_script h = false
  end.

(** A message list none of whose elements holds such markup. *)
Definition all_script_free (m : messagesEl_t) : Prop :=
  match m with
  | Some kids => Forall script_free kids
  | None => True
  end.





(** [now] is [before] in which only elements that have the id [id], or hold
    an element that has it, were changed or removed: every other element is
    kept as it is and where it is. *)
Inductive touches_only `{Parser} (id : string) : list element -> list element -> Prop :=
| touches_nil : touches_only id [] []
| touches_keep (e : element) (before now : list element) :
    touches_only id before now -> touches_only id (e :: before) (e :: now)
| touches_remove (e : element) (before now : list element) :
    has_id id e = true ->
    touches_only id before now -> touches_only id (e :: before) now
| touches_change (e e' : element) (before now : list element) :
    has_id id e = true ->
    touches_only id before now -> touches_only id (e :: before) (e' :: now).

(** A pattern character that is neither [<] nor a newline, also when
    folded. *)
Definition plainChar (a : ascii) : bool :=
  negb (Ascii.eqb (upcase a) "<"%char) && negb (Ascii.eqb (upcase a) LF).

Fixpoint plainPattern (q : string) : bool :=
  match q with
  | EmptyString => true
  | String a q' => plainChar a && plainPattern q'
  end.

(** A page with a non-blank key in [window.OPENAI_KEY] and a blank input. *)
Definition padded_keys : credentials :=
  {| OPENAI_KEY := Some "  sk-test  "; apiKeyInput := Some " " |}.

(** A page with a key and a message typed, but without [#messages]. *)
Definition no_list_hello : world numeral :=
  {| pg := {| keys := {| OPENAI_KEY := Some "sk-test"; apiKeyInput := None |};
              modelSelect := Some "gpt-4o";
              tempEl := None;
              systemPromptEl := None;
              promptEl := Some "hello";
              messagesEl := None |};
     page_earlier := []; page_later := [];
     alerts := []; requests := []; pending := []; unhandled := [] |}.

(** A successful response whose body is [ok_body]. *)
Definition ok_200 : fetched numeral :=
  Resolved {| status := 200; text := Ok ""; parsed := Ok ok_body |}.

(** A successful response whose body is [null]. *)
Definition null_200 : fetched numeral :=
  Resolved {| status := 200; text := Ok "null"; parsed := Ok JNull |}.

(* ================================================================= *)
(** * Properties *)

(** ** Reading fields *)

Section Reading.
Context {num : Type} `{Number num} `{Parser}.

Lemma get_not_null (j : json num) (k : string) :
  j <> JNull -> get (Some j) k = Ok (field (Some j) k).
Proof. destruct j; simpl; intros Hj; try reflexivity; congruence. Qed.

Lemma get_truthy (v : value num) (k : string) :
  truthy v = true -> get v k = Ok (field v k).
Proof.
  destruct v as [j|]; simpl; [|discriminate].
  destruct j; simpl; intros E; try reflexivity; discriminate.
Qed.

Lemma truthy_is_Some (v : value num) :
  truthy v = true -> exists j, v = Some j /\ j <> JNull.
Proof.
  destruct v as [j|]; simpl; [|discriminate].
  intros E. exists j. split; [reflexivity|]. intros ->. discriminate.
Qed.

Lemma first_truthy_is_Some (l : list (value num)) (d : json num) :
  exists v, first_truthy l (Some d) = Some v.
Proof.
  induction l as [|a l IH]; simpl.
  - now exists d.
  - destruct (truthy a) eqn:E; [|exact IH].
    destruct (truthy_is_Some a E) as (j & -> & _). now exists j.
Qed.

(** A map ends without an exception when its function does on every
    element. *)
Lemma mapM_Ok {A B : Type} (f : A -> result B) (xs : list A) :
  (forall x, In x xs -> exists y, f x = Ok y) ->
  exists ys, mapM f xs = Ok ys /\ List.length ys = List.length xs.
Proof.
  induction xs as [|x xs IH]; intros Hf; simpl.
  - now exists [].
  - destruct (Hf x (or_introl eq_refl)) as [y Hy].
    destruct IH as (ys & Hys & Hlen); [intros z Hz; apply Hf; now right|].
    rewrite Hy, Hys. simpl. exists (y :: ys). simpl. now rewrite Hlen.
Qed.

(** Line 181 in the words of the specification: [message.content], else
    [text], else [delta.content], else [null]. *)
Lemma choice_text_first_truthy (c : value num) :
  truthy c = true ->
  choice_text c =
    Ok (first_truthy [field (field c "message") "content";
                      field c "text";
                      field (field c "delta") "content"] (Some JNull)).
Proof.
  intros Hc. unfold choice_text.
  rewrite !(get_truthy c) by exact Hc. cbn [bind].
  assert (Hand : forall m : value num,
             js_and m (get m "content") = Ok (if truthy m then field m "content" else m)).
  { intros m. unfold js_and. destruct (truthy m) eqn:E; [now apply get_truthy|reflexivity]. }
  assert (Hfalsy : forall m : value num,
             truthy m = false -> truthy (field m "content") = false).
  { intros [[]|]; simpl; intros E; try reflexivity; discriminate. }
  rewrite !Hand. cbn [bind first_truthy]. unfold js_or.
  destruct (truthy (field c "message")) eqn:Em.
  - destruct (truthy (field (field c "message") "content")) eqn:E1; [reflexivity|].
    destruct (truthy (field c "text")) eqn:E2; [reflexivity|].
    cbn [bind]. destruct (truthy (field c "delta")) eqn:Ed.
    + destruct (truthy (field (field c "delta") "content")); reflexivity.
    + rewrite Ed, (Hfalsy _ Ed). reflexivity.
  - rewrite Em, (Hfalsy _ Em).
    destruct (truthy (field c "text")) eqn:E2; [reflexivity|].
    cbn [bind]. destruct (truthy (field c "delta")) eqn:Ed.
    + destruct (truthy (field (field c "delta") "content")); reflexivity.
    + rewrite Ed, (Hfalsy _ Ed). reflexivity.
Qed.

Lemma output_item_Ok (x : json num) :
  x <> JNull -> exists y, output_item x = Ok y.
Proof.
  intros Hx. unfold output_item. rewrite (get_not_null x) by exact Hx.
  cbn [bind]. unfold js_or. destruct (truthy _); eauto.
Qed.

(** A map whose function never throws on the list is a plain map. *)
Lemma mapM_map {A B : Type} (f : A -> result B) (g : A -> B) (xs : list A) :
  (forall x, In x xs -> f x = Ok (g x)) -> mapM f xs = Ok (map g xs).
Proof.
  induction xs as [|x xs IH]; intros Hf; [reflexivity|].
  simpl. rewrite (Hf x (or_introl eq_refl)).
  rewrite IH by (intros z Hz; apply Hf; now right). reflexivity.
Qed.

(** A map throws exactly when its function throws on some element. *)
Lemma mapM_Throw_iff {A B : Type} (f : A -> result B) (xs : list A) :
  (exists e, mapM f xs = Throw e) <-> exists x, In x xs /\ exists e, f x = Throw e.
Proof.
  induction xs as [|a xs IH]; cbn [mapM].
  - split; [intros [e He]; discriminate He|intros (x & [] & _)].
  - destruct (f a) as [y|e] eqn:Ea; cbn [bind].
    + destruct (mapM f xs) as [ys|e'] eqn:Em; cbn [bind].
      * split; [intros [e He]; discriminate He|].
        intros (x & [<-|Hx] & e & He); [congruence|].
        destruct (proj2 IH) as [e' He']; [eauto|discriminate He'].
      * split; [|eauto]. intros _.
        destruct (proj1 IH) as (x & Hx & Hxe); [eauto|].
        exists x. split; [now right|exact Hxe].
    + split; [|eauto]. intros _. exists a. split; [now left|eauto].
Qed.

(** An object converts to a string unless it owns a [toString] key. *)
Lemma ToString_object (props : list (string * json num)) :
  (exists e, ToString (JObj props) = Throw e) <-> own props "toString" <> None.
Proof.
  cbn [ToString]. destruct (own props "toString").
  - split; [discriminate|]. intros _. eexists. reflexivity.
  - split; [intros [e He]; discriminate He|congruence].
Qed.

Lemma output_item_line (x : json num) :
  x <> JNull -> output_item x = Ok (output_line x).
Proof.
  intros Hx. unfold output_item, output_line. rewrite (get_not_null x) by exact Hx.
  cbn [bind first_truthy]. unfold js_or.
  destruct (truthy (field (Some x) "content")); reflexivity.
Qed.

(** Line 184 on an array without [null]: the lines are made, then
    joined. *)
Lemma output_text_array (items : list (json num)) :
  ~ In JNull items ->
  output_text (Some (JArr items))
  = (lines <- mapM join_item (map output_line items) ;;
     Ok (Some (JStr (join (String LF "") lines)))).
Proof.
  intros Hn. unfold output_text. cbn [isString isArray elements].
  rewrite (mapM_map output_item output_line); [reflexivity|].
  intros x Hx. apply output_item_line. intros ->. exact (Hn Hx).
Qed.

(** Line 184 gives a string, unless the array holds a [null] or a line that
    does not convert to a string. *)
Lemma output_text_Ok (output : value num) :
  truthy output = true ->
  ~ In JNull (elements output) ->
  (forall x, In x (elements output) -> exists s, join_item (output_line x) = Ok s) ->
  exists v, output_text output = Ok (Some v)
            /\ (isString output = false -> exists s, v = JStr s).
Proof.
  intros Ho Hnn Hl. destruct (truthy_is_Some output Ho) as (o & -> & Ho').
  destruct o as [| | |s|items|props];
    try (eexists; split; [reflexivity|intros _; eauto]; fail).
  rewrite (output_text_array items Hnn).
  destruct (mapM_Ok join_item (map output_line items)) as (lines & -> & _).
  { intros y Hy. apply in_map_iff in Hy as (x & <- & Hx). now apply Hl. }
  cbn [bind]. eexists. split; [reflexivity|eauto].
Qed.

End Reading.

(* ================================================================= *)
(** ** The assistant text *)

Section Extraction.
Context {num : Type} `{Number num} `{Parser}.

(** C2, amended. For every parsed body other than [null] whose [output]
    array, if it has one, holds no [null] and no line that does not convert
    to a string, the extraction ends without an exception and gives a value
    that is not [undefined]: in the [choices] branch the first truthy one of
    [message.content], [text] and [delta.content] of element 0, or [null]
    when there is none; a string in the [output] branch; the value of
    [result] as it is in the [result] branch; and the pretty-printed JSON of
    the whole body when no branch matches. *)
Theorem assistantText_returns (j : json num) :
  j <> JNull ->
  ~ In JNull (elements (field (Some j) "output")) ->
  (forall x, In x (elements (field (Some j) "output")) ->
             exists s, join_item (output_line x) = Ok s) ->
  exists v : json num,
    assistantText j = Ok (Some v)
    /\ (choices_match j = true ->
        let c := item (field (Some j) "choices") 0 in
        Some v = first_truthy [field (field c "message") "content";
                               field c "text";
                               field (field c "delta") "content"] (Some JNull))
    /\ (choices_match j = false ->
        truthy (field (Some j) "output") = true ->
        exists s, v = JStr s)
    /\ (choices_match j = false ->
        truthy (field (Some j) "output") = false ->
        truthy (field (Some j) "result") = true ->
        Some v = field (Some j) "result")
    /\ (choices_match j = false ->
        truthy (field (Some j) "output") = false ->
        truthy (field (Some j) "result") = false ->
        v = JStr (stringify_pretty j)).
Proof.
  intros Hj Hnn Hl. unfold assistantText.
  rewrite !(get_not_null j) by exact Hj. cbn [bind].
  fold (choices_match j).
  destruct (choices_match j) eqn:Ec.
  - unfold choices_match in Ec.
    apply andb_true_iff in Ec as [_ Ec].
    rewrite (choice_text_first_truthy _ Ec).
    destruct (first_truthy_is_Some
                [field (field (item (field (Some j) "choices") 0) "message") "content";
                 field (item (field (Some j) "choices") 0) "text";
                 field (field (item (field (Some j) "choices") 0) "delta") "content"]
                JNull) as [v Hv].
    rewrite Hv. exists v. split; [reflexivity|].
    split; [intros _; cbv zeta; try rewrite Hv; reflexivity|].
    repeat split; discriminate.
  - destruct (truthy (field (Some j) "output")) eqn:Eo.
    + destruct (output_text_Ok _ Eo Hnn Hl) as (v & Hv & Hs).
      exists v. split; [exact Hv|]. split; [discriminate|].
      split; [|split; discriminate].
      intros _ _. destruct (isString (field (Some j) "output")) eqn:Es.
      * unfold output_text in Hv. rewrite Es in Hv.
        destruct (field (Some j) "output") as [[]|]; try discriminate.
        injection Hv as <-. eauto.
      * now apply Hs.
    + destruct (truthy (field (Some j) "result")) eqn:Er.
      * destruct (truthy_is_Some _ Er) as (r & Hr & _). rewrite Hr.
        exists r. split; [reflexivity|]. split; [discriminate|].
        split; [discriminate|]. split; [reflexivity|discriminate].
      * eexists. split; [reflexivity|]. split; [discriminate|].
        split; [discriminate|]. split; [discriminate|reflexivity].
Qed.

(** C7, amended. For a parsed body other than [null] the branches are tried
    in this order, the first whose test holds giving the text: a [choices]
    array whose element 0 is truthy ([message.content], else [text], else
    [delta.content], else [null]); a truthy [output]; a truthy [result]; the
    pretty-printed JSON of the body. Scenarios 4 and 5 give ["Hi"] and
    ["ok"]. *)
Theorem assistantText_branches (j : json num) :
  j <> JNull ->
  (choices_match j = true ->
   let c := item (field (Some j) "choices") 0 in
   assistantText j =
     Ok (first_truthy [field (field c "message") "content";
                       field c "text";
                       field (field c "delta") "content"] (Some JNull)))
  /\ (choices_match j = false ->
      truthy (field (Some j) "output") = true ->
      assistantText j = output_text (field (Some j) "output"))
  /\ (choices_match j = false ->
      truthy (field (Some j) "output") = false ->
      truthy (field (Some j) "result") = true ->
      assistantText j = Ok (field (Some j) "result"))
  /\ (choices_match j = false ->
      truthy (field (Some j) "output") = false ->
      truthy (field (Some j) "result") = false ->
      assistantText j = Ok (Some (JStr (stringify_pretty j))))
  /\ assistantText (@hi_body num) = Ok (Some (JStr "Hi"))
  /\ assistantText (@ok_body num) = Ok (Some (JStr "ok")).
Proof.
  intros Hj.
  assert (E : assistantText j =
              if choices_match j
              then choice_text (item (field (Some j) "choices") 0)
              else if truthy (field (Some j) "output")
                   then output_text (field (Some j) "output")
                   else if truthy (field (Some j) "result")
                        then Ok (field (Some j) "result")
                        else Ok (Some (JStr (stringify_pretty j)))).
  { unfold assistantText. rewrite !(get_not_null j) by exact Hj. reflexivity. }
  repeat split.
  - intros Ec c. rewrite E, Ec. apply choice_text_first_truthy.
    unfold choices_match in Ec. now apply andb_true_iff in Ec as [_ Ec].
  - intros Ec Eo. now rewrite E, Ec, Eo.
  - intros Ec Eo Er. now rewrite E, Ec, Eo, Er.
  - intros Ec Eo Er. now rewrite E, Ec, Eo, Er.
Qed.

(** A [null] body: reading [choices] throws. *)
Lemma assistantText_null :
  assistantText (@JNull num)
  = Throw (TypeError "Cannot read properties of null (reading 'choices')").
Proof. reflexivity. Qed.

End Extraction.

(** C2, as stated, fails: for [{"choices":[{}]}] the extraction gives
    [null], which is no text. *)
Lemma assistantText_choices_null :
  assistantText (JObj [("choices", JArr [JObj []])] : J) = Ok (Some JNull)
  /\ ~ gives_text (JObj [("choices", JArr [JObj []])] : J).
Proof.
  split; [reflexivity|]. intros [s Hs]. vm_compute in Hs. discriminate Hs.
Qed.

Lemma assistantText_returns_witness :
  exists v : J,
    assistantText (JObj [("error", JStr "overloaded")] : J) = Ok (Some v)
    /\ v = JStr (stringify_pretty (JObj [("error", JStr "overloaded")] : J)).
Proof.
  destruct (assistantText_returns (JObj [("error", JStr "overloaded")] : J))
    as (v & Hv & _ & _ & _ & Hp).
  - discriminate.
  - simpl. tauto.
  - intros x [].
  - exists v. split; [exact Hv|]. apply Hp; reflexivity.
Defined.

(** C7, as stated, fails: in [{"choices":[null],"result":"ok"}] the
    [choices] sequence is not empty, yet the text is that of [result]. *)
Lemma assistantText_choices_not_first :
  assistantText (JObj [("choices", JArr [JNull]); ("result", JStr "ok")] : J)
  = Ok (Some (JStr "ok"))
  /\ ~ choices_first (JObj [("choices", JArr [JNull]); ("result", JStr "ok")] : J).
Proof.
  split; [reflexivity|].
  intros Hc. destruct (Hc JNull [] eq_refl) as [E|E]; vm_compute in E; discriminate E.
Qed.

Lemma assistantText_branches_witness :
  (ok_body : J) <> JNull
  /\ assistantText (ok_body : J) = Ok (field (Some ok_body) "result").
Proof.
  split; [discriminate|].
  destruct (assistantText_branches (ok_body : J)) as (_ & _ & Hr & _).
  - discriminate.
  - apply Hr; reflexivity.
Defined.

(* ================================================================= *)
(** ** Showing the assistant text *)

Section Showing.
Context {num : Type} `{Number num} `{Parser}.

Lemma opensTag_replace_newlines (s : string) :
  opensTag (replace_newlines s) = opensTag s.
Proof.
  destruct s as [|d r]; [reflexivity|]. cbn [replace_newlines].
  destruct (Ascii.eqb d LF) eqn:E; [|reflexivity].
  apply Ascii.eqb_eq in E. subst d. reflexivity.
Qed.

Lemma tag_starts_replace_newlines (s : string) :
  tag_starts (replace_newlines s) = tag_starts s + newlines s.
Proof.
  induction s as [|c r IH]; [reflexivity|].
  cbn [replace_newlines tag_starts newlines].
  destruct (Ascii.eqb c LF) eqn:E.
  - apply Ascii.eqb_eq in E. subst c.
    change (tag_starts ("<br>" ++ replace_newlines r))
      with (1 + tag_starts (replace_newlines r)).
    rewrite IH. cbn. lia.
  - cbn [tag_starts]. rewrite opensTag_replace_newlines, IH. lia.
Qed.

(** C1, amended. An assistant text that matches the script pattern is shown
    through [textContent], as plain text. Any other text is assigned to
    [innerHTML] with [<br>] in place of each newline and nothing else
    changed, so that every tag of the text reaches the HTML parser. *)
Theorem show_assistant_text (text : string) (kids : list element) :
  show_assistant (Some (@JStr num text)) (Some kids)
  = (Some (kids ++ [botEl (if test_script text
                           then textContent text
                           else innerHTML (replace_newlines text))])%list, None)
  /\ tag_starts (replace_newlines text) = tag_starts text + newlines text.
Proof.
  split; [|apply tag_starts_replace_newlines].
  unfold show_assistant. cbn [truthy ToString_value ToString].
  destruct text as [|c r]; [reflexivity|].
  cbn [nonEmpty andb]. destruct (test_script (String c r)); reflexivity.
Qed.

(** The [null] of the [choices] branch is shown as an empty answer. *)
Lemma show_assistant_null (kids : list element) :
  show_assistant (Some (@JNull num)) (Some kids)
  = (Some (kids ++ [botEl (innerHTML "")])%list, None).
Proof. reflexivity. Qed.

End Showing.

(** C1, as stated, fails: the text [<img src=x onerror=alert(1)>] does not
    match the script pattern and is assigned to [innerHTML] as it is; the
    parser meets a tag where the text has no newline. *)
Lemma show_assistant_interprets_markup :
  show_assistant (Some (JStr "<img src=x onerror=alert(1)>" : J)) (Some [])
  = (Some [botEl (innerHTML "<img src=x onerror=alert(1)>")], None)
  /\ ~ filtered_as_specified (num := numeral) "<img src=x onerror=alert(1)>".
Proof.
  split; [reflexivity|].
  intros Hc. destruct (Hc []) as (c & Hshow & Hm).
  vm_compute in Hshow. injection Hshow as <-.
  vm_compute in Hm. destruct Hm as (h & Hh & Hn).
  injection Hh as <-. discriminate Hn.
Qed.

(* ================================================================= *)
(** ** The model list *)

Section Catalog.
Context {num : Type} `{Number num} `{Parser}.

Lemma model_of_entry_id (m : json num) :
  m <> JNull -> model_of_entry m = Ok (entry_id m).
Proof.
  intros Hm. unfold model_of_entry, entry_id.
  rewrite !(get_not_null m) by exact Hm. cbn [bind first_truthy]. unfold js_or.
  destruct (truthy (field (Some m) "id")); [reflexivity|].
  destruct (truthy (field (Some m) "name")); [reflexivity|].
  destruct (truthy (field (Some m) "model")); reflexivity.
Qed.

Lemma model_of_item_Ok (m : json num) :
  m <> JNull -> (exists s, ToString m = Ok s) -> exists v, model_of_item m = Ok v.
Proof.
  intros Hm [s Hs]. unfold model_of_item.
  rewrite !(get_not_null m) by exact Hm. cbn [bind]. unfold js_or.
  destruct (truthy (field (Some m) "id")); [eauto|].
  destruct (truthy (field (Some m) "model")); [eauto|].
  destruct (truthy (field (Some m) "name")); [eauto|].
  rewrite Hs. cbn [bind]. eauto.
Qed.

(** The mapping of a [data] array that holds no [null]: element by
    element and in order. *)
Lemma fetchModels_models_data (j : json num) (entries : list (json num)) :
  isArray (Some j) = false ->
  field (Some j) "data" = Some (JArr entries) ->
  ~ In JNull entries ->
  fetchModels_models j = Ok (map entry_id entries).
Proof.
  intros Ha Hd Hnn. unfold fetchModels_models. rewrite Ha.
  assert (Hj : j <> JNull) by (intros ->; discriminate Hd).
  rewrite (get_not_null j) by exact Hj. rewrite Hd. cbn [bind isArray elements].
  apply mapM_map. intros x Hx. apply model_of_entry_id. intros ->. exact (Hnn Hx).
Qed.

(** Away from [null], and from elements of a bare array that do not
    convert to a string, the list is never empty. *)
Lemma fetchModels_normalize_nonempty (j : json num) (m : messagesEl_t) :
  j <> JNull ->
  ~ In JNull (elements (Some j)) ->
  (forall x, In x (elements (Some j)) -> exists s, ToString x = Ok s) ->
  ~ In JNull (elements (field (Some j) "data")) ->
  ~ In JNull (elements (field (Some j) "models")) ->
  exists models m',
    fetchModels_normalize j m = Ok (models, m')
    /\ models <> []
    /\ (m' = m
        \/ models = fallback_models
           /\ m' = appendMessage fallback_notice "bot" false m).
Proof.
  intros Hj Ha Hs H1 H2.
  assert (Hm : exists models, fetchModels_models j = Ok models).
  { unfold fetchModels_models. destruct (isArray (Some j)).
    - destruct (mapM_Ok model_of_item (elements (Some j))) as (l & Hl & _); [|eauto].
      intros x Hx. apply model_of_item_Ok; [|now apply Hs]. intros ->. exact (Ha Hx).
    - rewrite !(get_not_null j) by exact Hj. cbn [bind].
      destruct (isArray (field (Some j) "data")).
      + rewrite (mapM_map _ entry_id); [eauto|].
        intros x Hx. apply model_of_entry_id. intros ->. exact (H1 Hx).
      + destruct (isArray (field (Some j) "models")).
        * rewrite (mapM_map _ entry_id); [eauto|].
          intros x Hx. apply model_of_entry_id. intros ->. exact (H2 Hx).
        * destruct j; try congruence; cbn [Object_keys bind]; eauto. }
  destruct Hm as [models Hm]. unfold fetchModels_normalize. rewrite Hm. cbn [bind].
  destruct models as [|v l]; cbn [List.length Nat.eqb].
  - do 2 eexists. split; [reflexivity|]. split; [discriminate|]. right. now split.
  - do 2 eexists. split; [reflexivity|]. split; [discriminate|]. now left.
Qed.

(** C3. The claim fails on a [null] body, and on an array that holds a
    [null]: reading a property of [null] throws, and no list is given. *)
Theorem fetchModels_normalize_null (m : messagesEl_t) :
  fetchModels_normalize (@JNull num) m
  = Throw (TypeError "Cannot read properties of null (reading 'data')")
  /\ fetchModels_normalize (@JArr num [JNull]) m
     = Throw (TypeError "Cannot read properties of null (reading 'id')").
Proof. split; reflexivity. Qed.

(** C8. Scenario 1 gives [["m1","m2"]], but the claim fails on a [data]
    array that holds a [null]: reading its [id] throws, where the claim has
    its JSON text. *)
Theorem fetchModels_models_data_null :
  fetchModels_models (@m1_m2_body num) = Ok [Some (JStr "m1"); Some (JStr "m2")]
  /\ entry_id (@JNull num) = Some (JStr "null")
  /\ fetchModels_models (@JObj num [("data", JArr [JNull])])
     = Throw (TypeError "Cannot read properties of null (reading 'id')").
Proof. repeat split; reflexivity. Qed.

End Catalog.

(* ================================================================= *)
(** ** Sending *)

Section Sending.
Context {num : Type} `{Number num} `{Parser}.

Lemma getApiKey_no_credential (c : credentials) :
  no_credential c -> getApiKey c = None.
Proof.
  intros [Hg Hi]. unfold getApiKey.
  assert (Hin : match apiKeyInput c with
                | Some v => if nonEmpty v && nonEmpty (trim v) then Some (trim v) else None
                | None => None
                end = None).
  { destruct (apiKeyInput c) as [v|]; [|reflexivity].
    simpl in Hi. rewrite Hi. now rewrite andb_false_r. }
  cbv zeta. rewrite Hin.
  destruct (OPENAI_KEY c) as [g|]; [|reflexivity].
  simpl in Hg. rewrite Hg. now rewrite andb_false_r.
Qed.

(** The world a send leaves when it passes the tests of lines 122-132 and
    finds the message list. *)
Lemma sendChat_started (now : Z) (w : world num)
    (v key : string) (kids : list element) :
  promptEl (pg w) = Some v ->
  nonEmpty (trim v) = true ->
  getApiKey (keys (pg w)) = Some key ->
  messagesEl (pg w) = Some kids ->
  sendChat now w
  = {| pg := set_messagesEl
               (Some ((kids ++ [ {| className := "msg user"; id_attr := "";
                                    inner := textContent (trim v) |} ])
                        ++ [thinkingEl now])%list)
               (set_prompt "" (pg w));
       page_earlier := page_earlier w; page_later := page_later w;
       alerts := alerts w;
       requests :=
         (requests w ++
            [ {| url := BASE ++ "/chat/completions";
                 method := "POST";
                 Authorization := key;
                 body := payload (modelSelect (pg w))
                           (match tempEl (pg w) with Some t => t | None => Number_0_7 end)
                           (match systemPromptEl (pg w) with Some s => s | None => "" end)
                           (trim v) |} ])%list;
       pending := (pending w ++ [thinkingId now])%list;
       unhandled := unhandled w |}.
Proof.
  intros Hp Hv Hk Hm. unfold sendChat. rewrite Hp, Hv, Hk, Hm. cbn.
  destruct (systemPromptEl (pg w)) as [[|c r]|]; reflexivity.
Qed.

(** C4, amended. [sendChat] has no single-flight guard: a send whose
    prompt is not blank, whose key resolves and whose page has the message
    list starts one more exchange, however many are waiting, makes its
    request at once and appends the user message and its placeholder. *)
Theorem sendChat_starts_exchange (now : Z) (w : world num)
    (v key : string) (kids : list element) :
  promptEl (pg w) = Some v ->
  nonEmpty (trim v) = true ->
  getApiKey (keys (pg w)) = Some key ->
  messagesEl (pg w) = Some kids ->
  pending (sendChat now w) = (pending w ++ [thinkingId now])%list
  /\ (exists req,
        requests (sendChat now w) = (requests w ++ [req])%list
        /\ Authorization req = key
        /\ body req
           = payload (modelSelect (pg w))
                     (match tempEl (pg w) with Some t => t | None => Number_0_7 end)
                     (match systemPromptEl (pg w) with Some s => s | None => "" end)
                     (trim v))
  /\ messagesEl (pg (sendChat now w))
     = Some (kids ++ [ {| className := "msg user"; id_attr := "";
                          inner := textContent (trim v) |};
                       thinkingEl now ])%list.
Proof.
  intros Hp Hv Hk Hm. rewrite (sendChat_started now w v key kids Hp Hv Hk Hm).
  cbn [pending requests pg messagesEl set_messagesEl].
  split; [reflexivity|]. split.
  - eexists. split; [reflexivity|]. split; reflexivity.
  - rewrite <- app_assoc. reflexivity.
Qed.

(** C5, amended. When no key resolves, [sendChat] makes no request, starts
    no exchange, and leaves the message list as it was; when moreover the
    prompt is there and not blank, it does nothing but show the alert that
    the key is missing. *)
Theorem sendChat_without_key (now : Z) (w : world num) :
  no_credential (keys (pg w)) ->
  requests (sendChat now w) = requests w
  /\ pending (sendChat now w) = pending w
  /\ messagesEl (pg (sendChat now w)) = messagesEl (pg w)
  /\ unhandled (sendChat now w) = unhandled w
  /\ (forall v, promptEl (pg w) = Some v -> trim v <> "" ->
      sendChat now w = alert missing_key_alert w).
Proof.
  intros Hc. apply getApiKey_no_credential in Hc. unfold sendChat. rewrite Hc.
  destruct (promptEl (pg w)) as [v|].
  - destruct (nonEmpty (trim v)) eqn:E; cbn [negb];
      (do 4 (split; [reflexivity|])); intros v' [= <-] Hv.
    + reflexivity.
    + destruct (trim v); [congruence|discriminate E].
  - (do 4 (split; [reflexivity|])). discriminate.
Qed.

(** C6. The request body carries the model and the temperature as given
    and, for messages, the system prompt when it is not empty, then the
    user text, and nothing else. *)
Theorem payload_shape (mdl : option string) (temp : num) (systemPrompt userText : string) :
  model (payload mdl temp systemPrompt userText) = mdl
  /\ temperature (payload mdl temp systemPrompt userText) = temp
  /\ exists sys,
       messages (payload mdl temp systemPrompt userText)
       = (sys ++ [ {| role := "user"; content := userText |} ])%list
       /\ (systemPrompt = "" /\ sys = []
           \/ systemPrompt <> ""
              /\ sys = [ {| role := "system"; content := systemPrompt |} ]).
Proof.
  split; [reflexivity|]. split; [reflexivity|]. unfold payload. cbn [messages].
  destruct systemPrompt as [|c r]; cbn [nonEmpty].
  - exists []. split; [reflexivity|]. now left.
  - eexists. split; [reflexivity|]. right. split; [discriminate|reflexivity].
Qed.

End Sending.

Lemma Z_toString_inj (a b : Z) : Z_toString a = Z_toString b -> a = b.
Proof.
  unfold Z_toString. intros E. apply DecimalZ.to_int_inj.
  apply (f_equal NilEmpty.int_of_string) in E.
  rewrite !NilEmpty.isi in E. now injection E.
Qed.

Lemma thinkingId_inj (now1 now2 : Z) :
  thinkingId now1 = thinkingId now2 -> now1 = now2.
Proof.
  unfold thinkingId. intros E. apply Z_toString_inj.
  cbn in E. now injection E.
Qed.

Section Placeholders.
Context {num : Type} `{Number num} `{Parser}.

Lemma last_child_sendChat (now : Z) (w : world num) :
  can_send w -> last_child (sendChat now w) = Some (thinkingEl now).
Proof.
  intros (v & key & kids & Hp & Hv & Hk & Hm).
  rewrite (sendChat_started now w v key kids Hp Hv Hk Hm).
  unfold last_child. cbn [pg messagesEl set_messagesEl].
  rewrite map_app. cbn [map]. apply last_last.
Qed.

(** C9, amended. A send that starts an exchange puts its placeholder last
    in the message list, and the handle of the placeholder is [thinking-]
    followed by the reading of [Date.now()] in decimal: the placeholders of
    two sends have the same handle exactly when the two readings are
    equal. *)
Theorem placeholder_handles (now1 now2 : Z) (w1 w2 : world num) :
  can_send w1 ->
  can_send w2 ->
  exists p1 p2 : element,
    last_child (sendChat now1 w1) = Some p1
    /\ last_child (sendChat now2 w2) = Some p2
    /\ id_attr p1 = thinkingId now1
    /\ id_attr p2 = thinkingId now2
    /\ (id_attr p1 = id_attr p2 <-> now1 = now2).
Proof.
  intros H1 H2. exists (thinkingEl now1), (thinkingEl now2).
  split; [now apply last_child_sendChat|].
  split; [now apply last_child_sendChat|].
  split; [reflexivity|]. split; [reflexivity|].
  cbn [thinkingEl id_attr]. split; [apply thinkingId_inj|now intros ->].
Qed.

End Placeholders.

Lemma placeholder_handles_witness :
  can_send session_hello
  /\ exists p1 p2 : element,
       last_child (sendChat 1700000000000 session_hello) = Some p1
       /\ last_child (sendChat 1700000000250 session_hello) = Some p2
       /\ id_attr p1 <> id_attr p2.
Proof.
  assert (Hc : can_send session_hello).
  { exists "hello", "sk-test", []. repeat split. }
  split; [exact Hc|].
  destruct (placeholder_handles 1700000000000 1700000000250 session_hello session_hello Hc Hc)
    as (p1 & p2 & H1 & H2 & _ & _ & Hiff).
  exists p1, p2. split; [exact H1|]. split; [exact H2|].
  intros E. apply Hiff in E. discriminate E.
Defined.

(** C4, as stated, fails: a second send made while the first waits for its
    response leaves two exchanges waiting. *)
Lemma two_exchanges_pending :
  pending (run session0 (two_sends 1700000000000 1700000000250))
  = [thinkingId 1700000000000; thinkingId 1700000000250]
  /\ ~ single_flight session0.
Proof.
  split; [reflexivity|].
  intros Hc. specialize (Hc (two_sends 1700000000000 1700000000250)).
  vm_compute in Hc. lia.
Qed.

Lemma sendChat_starts_exchange_witness :
  pending (sendChat 1700000000000 session_hello) = [thinkingId 1700000000000]
  /\ List.length (requests (sendChat 1700000000000 session_hello)) = 1.
Proof.
  destruct (sendChat_starts_exchange 1700000000000 session_hello "hello" "sk-test" [])
    as (Hp & (req & Hr & _) & _); try reflexivity.
  split; [exact Hp|]. rewrite Hr. reflexivity.
Defined.

(** C5, as stated, fails: with no key and a blank prompt [sendChat]
    returns at line 127, and nothing is shown to the user. *)
Lemma blank_prompt_not_surfaced :
  sendChat 1700000000000 keyless0 = keyless0
  /\ ~ missing_key_surfaced 1700000000000 keyless0.
Proof.
  split; [reflexivity|].
  intros Hc. destruct Hc as (Ha & _).
  - split; reflexivity.
  - vm_compute in Ha. discriminate Ha.
Qed.

Lemma sendChat_without_key_witness :
  no_credential (keys (pg keyless_hello))
  /\ requests (sendChat 1700000000000 keyless_hello) = []
  /\ alerts (sendChat 1700000000000 keyless_hello) = [missing_key_alert].
Proof.
  assert (Hc : no_credential (keys (pg keyless_hello))) by (split; reflexivity).
  destruct (sendChat_without_key 1700000000000 keyless_hello Hc)
    as (Hr & _ & _ & _ & Ha).
  split; [exact Hc|]. split; [exact Hr|].
  rewrite (Ha "hello" eq_refl); [reflexivity|discriminate].
Defined.

(** C9, as stated, fails: two sends that read the same [Date.now()] give
    their placeholders the same handle. *)
Lemma same_reading_same_handle :
  pending (run session0 (two_sends 1700000000000 1700000000000))
  = [thinkingId 1700000000000; thinkingId 1700000000000]
  /\ ~ handles_distinct session0 (two_sends 1700000000000 1700000000000).
Proof.
  split; [reflexivity|].
  intros Hc. vm_compute in Hc.
  inversion Hc as [|x l Hin _]. apply Hin. now left.
Qed.

(* ================================================================= *)
(** ** The lookup by id *)

Section Lookup.
Context {num : Type} `{Number num} `{Parser}.


Lemma update_first_none {A : Type} (p : A -> bool) (f : A -> option A) (xs : list A) :
  existsb p xs = false -> update_first p f xs = xs.
Proof.
  induction xs as [|x r IH]; [reflexivity|]. cbn [existsb update_first].
  intros E. apply orb_false_iff in E as [Ex Er]. rewrite Ex. now rewrite IH.
Qed.







End Lookup.

(* ================================================================= *)
(** ** Failed exchanges *)

Section Failing.
Context {num : Type} `{Number num} `{Parser}.










End Failing.


(* ================================================================= *)
(** * Further properties *)

(** ** The key *)

Lemma trimEnd_cons (c : ascii) (r : string) :
  trimEnd (String c r)
  = match trimEnd r with
    | EmptyString => if isWhiteSpace c then EmptyString else String c EmptyString
    | String d r' => String c (String d r')
    end.
Proof. reflexivity. Qed.

Lemma trimEnd_idempotent (s : string) : trimEnd (trimEnd s) = trimEnd s.
Proof.
  induction s as [|c r IH]; [reflexivity|]. rewrite trimEnd_cons.
  destruct (trimEnd r) as [|d r'] eqn:E.
  - destruct (isWhiteSpace c) eqn:Ec; [reflexivity|].
    rewrite trimEnd_cons. cbn [trimEnd]. now rewrite Ec.
  - rewrite trimEnd_cons, IH. reflexivity.
Qed.

Lemma trimStart_head (s : string) (c : ascii) (r : string) :
  trimStart s = String c r -> isWhiteSpace c = false.
Proof.
  induction s as [|a s IH]; cbn [trimStart]; [discriminate|].
  destruct (isWhiteSpace a) eqn:Ea; [exact IH|].
  intros E. injection E as <- _. exact Ea.
Qed.

Lemma trimEnd_head (c : ascii) (r : string) :
  isWhiteSpace c = false -> exists r', trimEnd (String c r) = String c r'.
Proof.
  intros Ec. cbn [trimEnd]. destruct (trimEnd r); [rewrite Ec|]; eauto.
Qed.

(** [trim] leaves a trimmed string as it is. *)
Lemma trim_idempotent (s : string) : trim (trim s) = trim s.
Proof.
  unfold trim. destruct (trimStart s) as [|c r] eqn:E; [reflexivity|].
  destruct (trimEnd_head c r (trimStart_head s c r E)) as [r' Hr].
  rewrite Hr. cbn [trimStart]. rewrite (trimStart_head s c r E).
  rewrite <- Hr. apply trimEnd_idempotent.
Qed.

Lemma nonEmpty_false (s : string) : nonEmpty s = false <-> s = "".
Proof. destruct s; split; intros E; try reflexivity; discriminate E. Qed.

Lemma key_test (s : string) :
  nonEmpty s && nonEmpty (trim s) = nonEmpty (trim s).
Proof. destruct s; reflexivity. Qed.

Lemma blank_iff (o : option string) :
  blank o <-> match o with
              | Some v => if nonEmpty v && nonEmpty (trim v) then Some (trim v) else None
              | None => None
              end = None.
Proof.
  destruct o as [v|]; cbn [blank]; [|tauto]. rewrite key_test.
  destruct (nonEmpty (trim v)) eqn:E.
  - split; [|discriminate]. intros Hv. rewrite Hv in E. discriminate E.
  - apply nonEmpty_false in E. tauto.
Qed.

(** X1. [getApiKey] gives no key exactly when both places are absent or
    blank once trimmed. *)
Theorem getApiKey_None_iff (c : credentials) :
  getApiKey c = None <-> no_credential c.
Proof.
  unfold no_credential. rewrite (blank_iff (OPENAI_KEY c)), (blank_iff (apiKeyInput c)).
  unfold getApiKey. cbv zeta.
  destruct (OPENAI_KEY c) as [g|].
  - destruct (nonEmpty g && nonEmpty (trim g)).
    + split; [discriminate|]. intros [Hg _]. discriminate Hg.
    + tauto.
  - tauto.
Qed.

Lemma key_source_Some (o : option string) (key : string) :
  match o with
  | Some v => if nonEmpty v && nonEmpty (trim v) then Some (trim v) else None
  | None => None
  end = Some key ->
  nonEmpty key = true /\ trim key = key /\ exists v, o = Some v /\ key = trim v.
Proof.
  destruct o as [v|]; [|discriminate]. rewrite key_test.
  destruct (nonEmpty (trim v)) eqn:E; [|discriminate].
  intros [= <-]. split; [exact E|]. split; [apply trim_idempotent|eauto].
Qed.

Lemma getApiKey_trimmed (c : credentials) (key : string) :
  getApiKey c = Some key -> nonEmpty key = true /\ trim key = key.
Proof.
  unfold getApiKey. cbv zeta. intros Hk.
  destruct (OPENAI_KEY c) as [g|].
  - destruct (nonEmpty g && nonEmpty (trim g)) eqn:Et.
    + destruct (key_source_Some (Some g) key) as (H1 & H2 & _); [now rewrite Et|].
      now split.
    + destruct (key_source_Some _ _ Hk) as (H1 & H2 & _). now split.
  - destruct (key_source_Some _ _ Hk) as (H1 & H2 & _). now split.
Qed.

(** X2. A key that [getApiKey] gives is not empty and is trimmed. It is
    the trimmed [window.OPENAI_KEY] whenever that one is not blank, whatever
    the input holds, and the trimmed value of the input otherwise. *)
Theorem getApiKey_Some (c : credentials) (key : string) :
  getApiKey c = Some key ->
  nonEmpty key = true
  /\ trim key = key
  /\ ((exists g, OPENAI_KEY c = Some g /\ key = trim g)
      \/ (blank (OPENAI_KEY c) /\ exists v, apiKeyInput c = Some v /\ key = trim v)).
Proof.
  intros Hk. destruct (getApiKey_trimmed c key Hk) as [H1 H2].
  split; [exact H1|]. split; [exact H2|].
  unfold getApiKey in Hk. cbv zeta in Hk.
  destruct (OPENAI_KEY c) as [g|] eqn:Eg.
  - destruct (nonEmpty g && nonEmpty (trim g)) eqn:Et.
    + injection Hk as <-. left. eauto.
    + destruct (key_source_Some _ _ Hk) as (_ & _ & H3).
      right. split; [|exact H3]. apply blank_iff. now rewrite Et.
  - destruct (key_source_Some _ _ Hk) as (_ & _ & H3). right. split; [exact I|exact H3].
Qed.

Lemma getApiKey_Some_witness :
  getApiKey padded_keys = Some "sk-test"
  /\ nonEmpty "sk-test" = true /\ trim "sk-test" = "sk-test".
Proof.
  split; [reflexivity|].
  destruct (getApiKey_Some padded_keys "sk-test" eq_refl) as (H1 & H2 & _).
  split; [exact H1|exact H2].
Defined.

(* ================================================================= *)
(** ** When the extraction and the model list throw *)

Section Throwing.
Context {num : Type} `{Number num} `{Parser}.

Lemma json_eq_null (j : json num) : j = JNull \/ j <> JNull.
Proof. destruct j; try (right; discriminate). now left. Qed.

Lemma In_JNull_dec (xs : list (json num)) : In JNull xs \/ ~ In JNull xs.
Proof.
  induction xs as [|x xs [IH|IH]].
  - right. intros [].
  - left. now right.
  - destruct x; try (right; intros [E|E]; [discriminate E|exact (IH E)]).
    left. now left.
Qed.

Lemma elements_truthy (v : value num) (x : json num) :
  In x (elements v) -> truthy v = true /\ isArray v = true /\ isString v = false.
Proof. destruct v as [[]|]; cbn; intros Hx; try destruct Hx; auto. Qed.

Lemma elements_array (v : value num) (x : json num) :
  In x (elements v) -> v = Some (JArr (elements v)).
Proof. destruct v as [[]|]; cbn; intros Hx; try destruct Hx; reflexivity. Qed.

(** X3. The extraction of the assistant text throws in three cases only:
    the body is [null]; or no [choices] element is used and [output] is an
    array that holds a [null]; or no [choices] element is used and [output]
    is an array one of whose lines, the [content] of an element or else its
    JSON text, does not convert to a string. *)
Theorem assistantText_Throw_iff (j : json num) :
  (exists e, assistantText j = Throw e)
  <-> j = JNull
      \/ (choices_match j = false
          /\ (In JNull (elements (field (Some j) "output"))
              \/ exists x, In x (elements (field (Some j) "output"))
                           /\ exists e, join_item (output_line x) = Throw e)).
Proof.
  destruct (json_eq_null j) as [->|Hj].
  { split; [now left|]. intros _. eexists. reflexivity. }
  unfold assistantText. rewrite !(get_not_null j) by exact Hj. cbn [bind].
  fold (choices_match j). destruct (choices_match j) eqn:Ec.
  - unfold choices_match in Ec. apply andb_true_iff in Ec as [_ Ec].
    rewrite (choice_text_first_truthy _ Ec).
    split; [intros [e He]; discriminate He|].
    intros [E|[E _]]; [congruence|discriminate E].
  - destruct (In_JNull_dec (elements (field (Some j) "output"))) as [Hn|Hn].
    + split; [right; split; [reflexivity|now left]|]. intros _.
      destruct (elements_truthy _ _ Hn) as (Ho & Ha & Hs).
      rewrite Ho. unfold output_text. rewrite Hs, Ha.
      destruct (proj2 (mapM_Throw_iff output_item
                         (elements (field (Some j) "output")))) as [e He].
      { exists JNull. split; [exact Hn|]. eexists. reflexivity. }
      rewrite He. now exists e.
    + destruct (truthy (field (Some j) "output")) eqn:Eo.
      * destruct (field (Some j) "output") as [[| | |s|items|props]|] eqn:Eout;
          try (split; [intros [e He]; discriminate He
                      |intros [E|[_ [[]|(x & [] & _)]]]; congruence]).
        cbn [elements] in Hn |- *. rewrite (output_text_array items Hn).
        split.
        -- intros [e He]. right. split; [reflexivity|]. right.
           destruct (mapM join_item (map output_line items)) as [l|e'] eqn:Em;
             [discriminate He|].
           destruct (proj1 (mapM_Throw_iff join_item (map output_line items)))
             as (y & Hy & Hye); [eauto|].
           apply in_map_iff in Hy as (x & <- & Hx). eauto.
        -- intros [E|[_ [Hn'|(x & Hx & Hxe)]]]; [congruence|contradiction|].
           destruct (proj2 (mapM_Throw_iff join_item (map output_line items)))
             as [e He].
           { exists (output_line x). split; [now apply in_map|exact Hxe]. }
           rewrite He. now exists e.
      * split.
        -- intros [e He]. destruct (truthy (field (Some j) "result")); discriminate He.
        -- intros [E|[_ [Hn'|(x & Hx & _)]]]; [congruence|contradiction|].
           destruct (elements_truthy _ _ Hx) as (Ho & _). congruence.
Qed.

(** X4. The mapping of the model list throws in these cases only: the body
    is [null]; the array it maps holds a [null]; or the body is an array
    with an element that has no truthy [id], [model] or [name] and does not
    convert to a string. *)
Theorem fetchModels_models_Throw_iff (j : json num) :
  (exists e, fetchModels_models j = Throw e)
  <-> j = JNull
      \/ In JNull (mapped_array j)
      \/ (isArray (Some j) = true
          /\ exists m, In m (elements (Some j))
                       /\ truthy (field (Some m) "id") = false
                       /\ truthy (field (Some m) "model") = false
                       /\ truthy (field (Some m) "name") = false
                       /\ exists e, ToString m = Throw e).
Proof.
  assert (Hitem : forall m : json num,
             (exists e, model_of_item m = Throw e)
             <-> m = JNull
                 \/ (truthy (field (Some m) "id") = false
                     /\ truthy (field (Some m) "model") = false
                     /\ truthy (field (Some m) "name") = false
                     /\ exists e, ToString m = Throw e)).
  { intros m. destruct (json_eq_null m) as [->|Hm].
    { split; [now left|]. intros _. eexists. reflexivity. }
    unfold model_of_item. rewrite !(get_not_null m) by exact Hm.
    cbn [bind]. unfold js_or.
    destruct (truthy (field (Some m) "id"));
      [split; [intros [e He]; discriminate He
              |intros [E|(E & _)]; [congruence|discriminate E]]|].
    destruct (truthy (field (Some m) "model"));
      [split; [intros [e He]; discriminate He
              |intros [E|(_ & E & _)]; [congruence|discriminate E]]|].
    destruct (truthy (field (Some m) "name"));
      [split; [intros [e He]; discriminate He
              |intros [E|(_ & _ & E & _)]; [congruence|discriminate E]]|].
    destruct (ToString m) as [s|e]; cbn [bind].
    - split; [intros [e He]; discriminate He|].
      intros [E|(_ & _ & _ & e & He)]; [congruence|discriminate He].
    - split; [|eauto]. intros _. right. repeat split. eauto. }
  assert (Hentry : forall xs : list (json num),
             (exists e, mapM model_of_entry xs = Throw e) <-> In JNull xs).
  { intros xs. rewrite mapM_Throw_iff. split.
    - intros (x & Hx & e & He). destruct (json_eq_null x) as [->|Hn]; [exact Hx|].
      rewrite (model_of_entry_id x Hn) in He. discriminate He.
    - intros Hn. exists JNull. split; [exact Hn|]. eexists. reflexivity. }
  destruct (json_eq_null j) as [->|Hj].
  { split; [now left|]. intros _. eexists. reflexivity. }
  unfold fetchModels_models, mapped_array.
  destruct (isArray (Some j)) eqn:Ea.
  - rewrite mapM_Throw_iff. split.
    + intros (m & Hm & Hthrow). apply Hitem in Hthrow as [->|Hfields].
      * right. now left.
      * right. right. split; [reflexivity|]. now exists m.
    + intros [E|[Hn|(_ & m & Hm & Hfields)]]; [congruence| |].
      * exists JNull. split; [exact Hn|]. apply Hitem. now left.
      * exists m. split; [exact Hm|]. apply Hitem. now right.
  - rewrite !(get_not_null j) by exact Hj. cbn [bind].
    destruct (isArray (field (Some j) "data")).
    + rewrite Hentry. split; [intros Hn; right; now left|].
      intros [E|[Hn|(E & _)]]; [congruence|exact Hn|discriminate E].
    + destruct (isArray (field (Some j) "models")).
      * rewrite Hentry. split; [intros Hn; right; now left|].
        intros [E|[Hn|(E & _)]]; [congruence|exact Hn|discriminate E].
      * split.
        -- intros [e He]. destruct j; try congruence; discriminate He.
        -- intros [E|[[]|(E & _)]]; [congruence|discriminate E].
Qed.

End Throwing.
(* ================================================================= *)
(** ** More on the model list and on [output] *)

Section Shapes.
Context {num : Type} `{Number num} `{Parser}.

(** X5. Whenever the normalisation of lines 94-107 ends without an
    exception its list is not empty: it is the mapped list, with the message
    list untouched, or, when the mapped list is empty, the fallback list
    with the notice appended. *)
Theorem fetchModels_normalize_Ok (j : json num) (m m' : messagesEl_t)
    (models : list (value num)) :
  fetchModels_normalize j m = Ok (models, m') ->
  models <> []
  /\ (fetchModels_models j = Ok models /\ m' = m
      \/ fetchModels_models j = Ok []
         /\ models = fallback_models
         /\ m' = appendMessage fallback_notice "bot" false m).
Proof.
  unfold fetchModels_normalize. destruct (fetchModels_models j) as [l|e]; [|discriminate].
  cbn [bind]. destruct l as [|v l]; cbn [List.length Nat.eqb]; intros [= <- <-].
  - split; [discriminate|]. right. repeat split.
  - split; [discriminate|]. left. now split.
Qed.

(** X6. A body that is an array of strings is taken as the list of model
    names, as it is and in order. *)
Theorem fetchModels_models_strings (names : list string) :
  fetchModels_models (@JArr num (map JStr names))
  = Ok (map (fun s => Some (JStr s)) names).
Proof.
  unfold fetchModels_models. cbn [isArray elements].
  rewrite (mapM_map model_of_item (fun x => Some x)).
  - now rewrite map_map.
  - intros x Hx. apply in_map_iff in Hx as (s & <- & _). reflexivity.
Qed.

(** X7. An object whose [data] and [models] are not arrays gives its own
    keys, in order and cut after the twentieth. *)
Theorem fetchModels_models_keys (props : list (string * json num)) :
  isArray (own props "data") = false ->
  isArray (own props "models") = false ->
  fetchModels_models (JObj props)
  = Ok (map (fun kv => Some (JStr (fst kv))) (firstn 20 props))
  /\ (List.length (firstn 20 props) <= 20)%nat.
Proof.
  intros Hd Hm. split; [|apply firstn_le_length].
  unfold fetchModels_models. cbn [isArray get field bind].
  rewrite Hd, Hm. cbn [Object_keys bind].
  rewrite map_map, firstn_map. reflexivity.
Qed.

(** X8. The two mappings prefer different fields: for an element without a
    truthy [id] that has a truthy [name] and a truthy [model], a bare array
    gives its [model] and a [data] or [models] array gives its [name]. *)
Theorem model_or_name (props : list (string * json num)) :
  truthy (own props "id") = false ->
  truthy (own props "name") = true ->
  truthy (own props "model") = true ->
  model_of_item (JObj props) = Ok (own props "model")
  /\ model_of_entry (JObj props) = Ok (own props "name").
Proof.
  intros Hi Hn Hm. unfold model_of_item, model_of_entry.
  cbn [get bind]. unfold js_or. now rewrite Hi, Hn, Hm.
Qed.

(** X9. When no [choices] element is used and [output] is an array without
    [null], each of whose lines, the [content] of an element or else its
    JSON text, converts to a string, the text is these lines joined by
    newlines; [result] is not looked at, and an empty array gives the empty
    text. *)
Theorem assistantText_output_array (j : json num) (items : list (json num))
    (lines : list string) :
  choices_match j = false ->
  field (Some j) "output" = Some (JArr items) ->
  ~ In JNull items ->
  mapM join_item (map output_line items) = Ok lines ->
  assistantText j = Ok (Some (JStr (join (String LF "") lines))).
Proof.
  intros Ec Ho Hn Hl.
  assert (Hj : j <> JNull) by (intros ->; discriminate Ho).
  unfold assistantText. rewrite !(get_not_null j) by exact Hj. cbn [bind].
  fold (choices_match j). rewrite Ec, Ho. cbn [truthy].
  rewrite (output_text_array items Hn), Hl. reflexivity.
Qed.

End Shapes.

Lemma fetchModels_normalize_Ok_witness :
  fetchModels_normalize (JObj [] : J) (Some [])
  = Ok (fallback_models, appendMessage fallback_notice "bot" false (Some []))
  /\ (fallback_models : list (value numeral)) <> [].
Proof.
  split; [reflexivity|].
  exact (proj1 (fetchModels_normalize_Ok (JObj [] : J) (Some []) _ _ eq_refl)).
Defined.

Lemma fetchModels_models_keys_witness :
  fetchModels_models (JObj [("object", JStr "list"); ("error", JNull)] : J)
  = Ok [Some (JStr "object"); Some (JStr "error")].
Proof.
  exact (proj1 (fetchModels_models_keys
                  [("object", JStr "list"); ("error", JNull)] eq_refl eq_refl)).
Defined.

Lemma model_or_name_witness :
  model_of_item (JObj [("name", JStr "GPT"); ("model", JStr "gpt-4o")] : J)
  = Ok (Some (JStr "gpt-4o"))
  /\ model_of_entry (JObj [("name", JStr "GPT"); ("model", JStr "gpt-4o")] : J)
     = Ok (Some (JStr "GPT")).
Proof.
  exact (model_or_name [("name", JStr "GPT"); ("model", JStr "gpt-4o")]
           eq_refl eq_refl eq_refl).
Defined.

Lemma assistantText_output_array_witness :
  assistantText (JObj [("output", JArr []); ("result", JStr "ok")] : J)
  = Ok (Some (JStr "")).
Proof.
  exact (assistantText_output_array
           (JObj [("output", JArr []); ("result", JStr "ok")] : J) [] []
           eq_refl eq_refl (fun F => F) eq_refl).
Defined.

(* ================================================================= *)
(** ** No script markup reaches [innerHTML] *)

Lemma prefix_i_cons (x : ascii) (p : string) (c : ascii) (t : string) :
  prefix_i (String x p) (String c t)
  = Ascii.eqb (upcase x) (upcase c) && prefix_i p t.
Proof. reflexivity. Qed.

Lemma prefix_i_replace_newlines (q r : string) :
  plainPattern q = true ->
  prefix_i q (replace_newlines r) = prefix_i q r.
Proof.
  revert r. induction q as [|a q IH]; intros r Hq; [reflexivity|].
  cbn [plainPattern] in Hq. apply andb_true_iff in Hq as [Ha Hq].
  unfold plainChar in Ha. apply andb_true_iff in Ha as [Ha1 Ha2].
  apply negb_true_iff in Ha1, Ha2.
  destruct r as [|d r]; [reflexivity|]. cbn [replace_newlines].
  destruct (Ascii.eqb d LF) eqn:E.
  - apply Ascii.eqb_eq in E. subst d.
    change ("<br>" ++ replace_newlines r)
      with (String "<" (String "b" (String "r" (String ">" (replace_newlines r))))).
    cbn [prefix_i].
    change (upcase "<") with "<"%char. change (upcase LF) with LF.
    now rewrite Ha1, Ha2.
  - cbn [prefix_i]. now rewrite IH.
Qed.

Lemma test_i_replace_newlines (a : ascii) (q s : string) :
  Ascii.eqb (upcase a) "B" = false ->
  plainPattern (String a q) = true ->
  test_i (String "<" (String a q)) (replace_newlines s)
  = test_i (String "<" (String a q)) s.
Proof.
  intros Ha Hq. induction s as [|c r IH]; [reflexivity|].
  cbn [replace_newlines]. destruct (Ascii.eqb c LF) eqn:E.
  - apply Ascii.eqb_eq in E. subst c.
    change ("<br>" ++ replace_newlines r)
      with (String "<" (String "b" (String "r" (String ">" (replace_newlines r))))).
    cbn [test_i prefix_i].
    change (upcase "<") with "<"%char. change (upcase "b") with "B"%char.
    change (upcase "r") with "R"%char. change (upcase ">") with ">"%char.
    change (upcase LF) with LF.
    rewrite Ha. cbn. exact IH.
  - cbn [test_i]. rewrite IH. f_equal.
    rewrite (prefix_i_cons "<" (String a q) c (replace_newlines r)).
    rewrite (prefix_i_cons "<" (String a q) c r).
    f_equal. now apply prefix_i_replace_newlines.
Qed.

(** The substitution of line 202 neither makes nor breaks a match of the
    pattern of line 197. *)
Lemma test_script_replace_newlines (s : string) :
  test_script (replace_newlines s) = test_script s.
Proof.
  unfold test_script.
  rewrite (test_i_replace_newlines "s" "cript"), (test_i_replace_newlines "/" "script");
    reflexivity.
Qed.

Section ScriptFree.
Context {num : Type} `{Number num} `{Parser}.

Lemma appendMessage_script_free (t who : string) (m : messagesEl_t) :
  all_script_free m -> all_script_free (appendMessage t who false m).
Proof.
  destruct m as [kids|]; cbn [appendMessage all_script_free]; [|trivial].
  intros Hk. apply Forall_app. split; [exact Hk|]. constructor; [exact I|constructor].
Qed.

Lemma update_first_Forall {A : Type} (P : A -> Prop) (p : A -> bool)
    (f : A -> option A) (xs : list A) :
  Forall P xs ->
  (forall x y, P x -> f x = Some y -> P y) ->
  Forall P (update_first p f xs).
Proof.
  intros Hxs Hf. induction Hxs as [|x r Hx Hr IH]; cbn [update_first]; [constructor|].
  destruct (p x); [|now constructor].
  destruct (f x) as [y|] eqn:E; [|exact Hr]. constructor; [|exact Hr].
  exact (Hf x y Hx E).
Qed.

Lemma touch_script_free (g : list node -> list node) (e : element) :
  script_free e ->
  script_free {| className := className e; id_attr := id_attr e;
                 inner := touch g (inner e) |}.
Proof. unfold script_free. cbn [inner]. destruct (inner e); trivial. Qed.

Lemma remove_by_id_script_free (id : string) (kids : list element) :
  Forall script_free kids -> Forall script_free (remove_by_id id kids).
Proof.
  intros Hk. apply update_first_Forall; [exact Hk|].
  intros x y Hx. destruct (String.eqb (id_attr x) id); [discriminate|].
  intros [= <-]. now apply touch_script_free.
Qed.

Lemma set_textContent_script_free (id t : string) (kids : list element) :
  Forall script_free kids -> Forall script_free (set_textContent id t kids).
Proof.
  intros Hk. apply update_first_Forall; [exact Hk|].
  intros x y Hx. destruct (String.eqb (id_attr x) id); intros [= <-].
  - exact I.
  - now apply touch_script_free.
Qed.

Lemma show_assistant_script_free (a : value num) (m : messagesEl_t) :
  all_script_free m -> all_script_free (fst (show_assistant a m)).
Proof.
  intros Hm.
  assert (Hhtml : forall s, test_script s = false ->
            all_script_free
              (fst match m with
                   | Some kids =>
                       (Some (kids ++ [ {| className := "msg bot"; id_attr := "";
                                           inner := innerHTML (replace_newlines s) |} ])%list,
                        @None exn)
                   | None =>
                       (None, Some (TypeError
                                      "Cannot read properties of null (reading 'appendChild')"))
                   end)).
  { intros s Hs. destruct m as [kids|]; cbn [fst all_script_free]; [|exact I].
    apply Forall_app. split; [exact Hm|]. constructor; [|constructor].
    unfold script_free. cbn [inner]. now rewrite test_script_replace_newlines. }
  unfold show_assistant. cbv zeta. destruct (truthy a) eqn:Ea.
  - destruct (ToString_value a) as [s|e] eqn:Es; [|exact Hm].
    destruct (test_script s) eqn:Et; [now apply appendMessage_script_free|].
    destruct a as [[| | |s'| |]|]; try exact Hm.
    cbn in Es. injection Es as ->. now apply Hhtml.
  - now apply (Hhtml "").
Qed.

Lemma remove_found_script_free (id : string) (d : document) :
  all_script_free (listed d) -> all_script_free (listed (remove_found id d)).
Proof.
  intros Hm. unfold remove_found.
  destruct (existsb (node_has id) (earlier d)); [exact Hm|].
  destruct (listed_has id (listed d)); [|exact Hm].
  cbn [set_listed listed]. destruct (listed d) as [kids|]; [|exact I].
  now apply remove_by_id_script_free.
Qed.

Lemma set_found_text_script_free (id t : string) (d : document) :
  all_script_free (listed d) -> all_script_free (listed (set_found_text id t d)).
Proof.
  intros Hm. unfold set_found_text.
  destruct (existsb (node_has id) (earlier d)); [exact Hm|].
  destruct (listed_has id (listed d)); [|exact Hm].
  cbn [set_listed listed]. destruct (listed d) as [kids|]; [|exact I].
  now apply set_textContent_script_free.
Qed.

Lemma sendChat_try_script_free (id : string) (f : fetched num) (d : document) :
  all_script_free (listed d) -> all_script_free (listed (fst (sendChat_try id f d))).
Proof.
  intros Hm. unfold sendChat_try. destruct f as [e|res]; [exact Hm|].
  destruct (negb (ok res)); [destruct (text res); exact Hm|].
  destruct (parsed res) as [j|e]; [|exact Hm].
  destruct (assistantText j) as [a|e]; [|exact Hm].
  cbv zeta. cbn [fst set_listed listed].
  apply show_assistant_script_free.
  destruct (getElementById id d); [|exact Hm].
  now apply remove_found_script_free.
Qed.

Lemma sendChat_catch_script_free (id : string) (err : exn) (d : document) :
  all_script_free (listed d) -> all_script_free (listed (sendChat_catch id err d)).
Proof.
  intros Hm. unfold sendChat_catch.
  set (line := "Error: " ++ message_or_err err).
  assert (H1 : all_script_free
                 (listed (if getElementById id d
                          then set_found_text id line d
                          else set_listed (appendMessage line "bot" false (listed d)) d))).
  { destruct (getElementById id d); [now apply set_found_text_script_free|].
    cbn [set_listed listed]. now apply appendMessage_script_free. }
  destruct (nonEmpty (message err) && test_network (message err)); [|exact H1].
  cbn [set_listed listed]. now apply appendMessage_script_free.
Qed.

Lemma sendChat_resume_script_free (id : string) (f : fetched num) (d : document) :
  all_script_free (listed d) -> all_script_free (listed (sendChat_resume id f d)).
Proof.
  intros Hm. unfold sendChat_resume.
  pose proof (sendChat_try_script_free id f d Hm) as Ht.
  destruct (sendChat_try id f d) as [d1 [err|]]; cbn [fst] in Ht; [|exact Ht].
  now apply sendChat_catch_script_free.
Qed.

Lemma sendChat_script_free (now : Z) (w : world num) :
  all_script_free (messagesEl (pg w)) ->
  all_script_free (messagesEl (pg (sendChat now w))).
Proof.
  intros Hm. unfold sendChat.
  destruct (promptEl (pg w)) as [v|]; [|exact Hm].
  destruct (negb (nonEmpty (trim v))); [exact Hm|].
  destruct (getApiKey (keys (pg w))); [|exact Hm].
  destruct (messagesEl (pg w)) as [kids|] eqn:Ek.
  - cbn. cbn in Hm. apply Forall_app. split; [|constructor; [exact I|constructor]].
    apply Forall_app. split; [exact Hm|]. constructor; [exact I|constructor].
  - cbn. now rewrite Ek.
Qed.

Lemma step_script_free (w : world num) (e : event num) :
  all_script_free (messagesEl (pg w)) ->
  all_script_free (messagesEl (pg (step w e))).
Proof.
  intros Hm. destruct e as [v|now|n f]; cbn [step].
  - exact Hm.
  - now apply sendChat_script_free.
  - destruct (nth_error (pending w) n) as [id|]; [|exact Hm].
    cbn [pg messagesEl set_messagesEl].
    now apply (sendChat_resume_script_free id f (document_of w)).
Qed.

(** X10. Whatever the user and the provider do, no element of the message
    list ever holds markup that matches the script pattern: if that is so of
    the page at first, it is so after every run of sends, edits and
    responses. *)
Theorem run_script_free (w : world num) (es : list (event num)) :
  all_script_free (messagesEl (pg w)) ->
  all_script_free (messagesEl (pg (run w es))).
Proof.
  revert w. induction es as [|e es IH]; intros w Hm; [exact Hm|].
  cbn [run fold_left]. apply IH. now apply step_script_free.
Qed.

End ScriptFree.

Lemma run_script_free_witness :
  all_script_free
    (messagesEl (pg (run session0 [Edit "hi"; Send 1700000000000; Settle 0 ok_200]))).
Proof.
  apply (run_script_free session0). constructor.
Defined.

(* ================================================================= *)
(** ** Whole exchanges *)

Section Exchanges.
Context {num : Type} `{Number num} `{Parser}.



Lemma drop_nth_length {A : Type} (n : nat) (l : list A) :
  (List.length (drop_nth n l) <= List.length l)%nat.
Proof.
  revert n. induction l as [|a l IH]; intros [|n]; cbn; try lia.
  specialize (IH n). lia.
Qed.







Lemma thinkingId_not_empty (now : Z) : "" <> thinkingId now.
Proof. unfold thinkingId. discriminate. Qed.



(** X11. A second call of [sendChat] right after one that started an
    exchange does nothing: the first call emptied the prompt, so a double
    click sends once. *)
Theorem sendChat_twice (now1 now2 : Z) (w : world num) :
  can_send w ->
  sendChat now2 (sendChat now1 w) = sendChat now1 w.
Proof.
  intros (v & key & kids & Hp & Hv & Hk & Hm).
  rewrite (sendChat_started now1 w v key kids Hp Hv Hk Hm).
  unfold sendChat at 1. cbn [pg promptEl set_messagesEl set_prompt].
  rewrite Hp. reflexivity.
Qed.



End Exchanges.

Lemma sendChat_twice_witness :
  can_send session_hello
  /\ sendChat 1700000000250 (sendChat 1700000000000 session_hello)
     = sendChat 1700000000000 session_hello.
Proof.
  assert (Hc : can_send session_hello).
  { exists "hello", "sk-test", []. repeat split. }
  split; [exact Hc|]. exact (sendChat_twice 1700000000000 1700000000250 session_hello Hc).
Defined.



(* ================================================================= *)
(** ** What [sendChat] sends, and when *)

Section Requests.
Context {num : Type} `{Number num} `{Parser}.

Lemma sendChat_requests (now : Z) (w : world num) :
  requests (sendChat now w) = requests w
  \/ exists r, requests (sendChat now w) = (requests w ++ [r])%list /\ well_formed r.
Proof.
  unfold sendChat. destruct (promptEl (pg w)) as [v|]; [|now left].
  destruct (nonEmpty (trim v)) eqn:Ev; cbn [negb]; [|now left].
  destruct (getApiKey (keys (pg w))) as [key|] eqn:Ek; [|now left].
  destruct (messagesEl (pg w)) as [kids|]; cbn [appendMessage]; [|now left].
  right. eexists. split; [reflexivity|].
  destruct (getApiKey_trimmed _ _ Ek) as [Hk1 Hk2].
  unfold well_formed. cbn [url method Authorization body payload messages].
  repeat (split; [assumption || reflexivity|]).
  exists (trim v). split; [exact Ev|]. split; [apply trim_idempotent|].
  destruct (systemPromptEl (pg w)) as [[|c r]|]; cbn [nonEmpty app].
  - now left.
  - right. exists (String c r). now split.
  - now left.
Qed.

Lemma step_requests (w : world num) (e : event num) :
  requests (step w e) = requests w
  \/ exists now r, e = Send now
                   /\ requests (step w e) = (requests w ++ [r])%list
                   /\ well_formed r.
Proof.
  destruct e as [v|now|n f]; cbn [step].
  - now left.
  - destruct (sendChat_requests now w) as [E|(r & E & Hr)]; [now left|].
    right. now exists now, r.
  - destruct (nth_error (pending w) n); now left.
Qed.

(** X14. Every request [sendChat] makes is well formed: it goes to the
    chat endpoint by POST, its key and its user text are trimmed and not
    empty, and its messages are the user message, alone or after one
    message of role [system] whose prompt is not empty. This holds of all
    the requests of a run. *)
Theorem run_requests_well_formed (w : world num) (es : list (event num)) :
  Forall well_formed (requests w) ->
  Forall well_formed (requests (run w es)).
Proof.
  revert w. induction es as [|e es IH]; intros w Hw; [exact Hw|].
  cbn [run fold_left]. apply IH.
  destruct (step_requests w e) as [->|(now & r & _ & -> & Hr)]; [exact Hw|].
  apply Forall_app. split; [exact Hw|]. now constructor.
Qed.

(** X15. Requests are only added, by sends and one per send at most: a
    response, failed or not, never makes [sendChat] ask again. *)
Theorem run_requests_sends (w : world num) (es : list (event num)) :
  exists added,
    requests (run w es) = (requests w ++ added)%list
    /\ (List.length added <= sends es)%nat.
Proof.
  revert w. induction es as [|e es IH]; intros w.
  - exists []. split; [now rewrite app_nil_r|]. cbn. lia.
  - cbn [run fold_left]. destruct (IH (step w e)) as (added & Ha & Hl).
    fold (run (step w e) es). rewrite Ha.
    destruct (step_requests w e) as [->|(now & r & -> & -> & _)].
    + exists added. split; [reflexivity|].
      unfold sends in *. cbn [filter]. destruct e; cbn [List.length]; lia.
    + exists (r :: added). split; [now rewrite <- app_assoc|].
      unfold sends in *. cbn [filter List.length]. lia.
Qed.

(** X16. A page without [#messages]: a send that passes the tests of
    lines 122-132 empties the prompt and then throws at line 146, before any
    request is made; no exchange is started and nothing is shown. *)
Theorem sendChat_without_messages (now : Z) (w : world num) (v key : string) :
  promptEl (pg w) = Some v ->
  nonEmpty (trim v) = true ->
  getApiKey (keys (pg w)) = Some key ->
  messagesEl (pg w) = None ->
  requests (sendChat now w) = requests w
  /\ pending (sendChat now w) = pending w
  /\ alerts (sendChat now w) = alerts w
  /\ promptEl (pg (sendChat now w)) = Some ""
  /\ exists e, unhandled (sendChat now w) = (unhandled w ++ [e])%list
               /\ name e = "TypeError".
Proof.
  intros Hp Hv Hk Hm. unfold sendChat. rewrite Hp, Hv, Hk, Hm.
  cbn [negb appendMessage requests pending alerts pg promptEl set_prompt unhandled].
  rewrite Hp. repeat split. eexists. split; reflexivity.
Qed.

End Requests.

Lemma run_requests_well_formed_witness :
  Forall well_formed
    (requests (run session0 (two_sends 1700000000000 1700000000250))).
Proof.
  apply (run_requests_well_formed session0). constructor.
Defined.

Lemma sendChat_without_messages_witness :
  requests (sendChat 1700000000000 no_list_hello) = []
  /\ promptEl (pg (sendChat 1700000000000 no_list_hello)) = Some "".
Proof.
  destruct (sendChat_without_messages 1700000000000 no_list_hello "hello" "sk-test"
              eq_refl eq_refl eq_refl eq_refl) as (Hr & _ & _ & Hp & _).
  split; [exact Hr|exact Hp].
Defined.

(* ================================================================= *)
(** ** What a response leaves alone *)

Section Others.
Context {num : Type} `{Number num} `{Parser}.

Lemma touches_only_refl (id : string) (kids : list element) :
  touches_only id kids kids.
Proof. induction kids; constructor; assumption. Qed.

Lemma touches_only_trans (id : string) (a b c : list element) :
  touches_only id a b -> touches_only id b c -> touches_only id a c.
Proof.
  intros Hab. revert c. induction Hab as [|e r r' Hr IH|e r b Hid Hr IH|e e' r r' Hid Hr IH];
    intros c Hbc.
  - exact Hbc.
  - inversion Hbc; subst.
    + apply touches_keep. now apply IH.
    + apply touches_remove; [assumption|]. now apply IH.
    + apply touches_change; [assumption|]. now apply IH.
  - apply touches_remove; [exact Hid|]. now apply IH.
  - inversion Hbc; subst.
    + apply touches_change; [exact Hid|]. now apply IH.
    + apply touches_remove; [exact Hid|]. now apply IH.
    + apply touches_change; [exact Hid|]. now apply IH.
Qed.

Lemma update_first_touches (id : string) (f : element -> option element)
    (kids : list element) :
  touches_only id kids (update_first (has_id id) f kids).
Proof.
  induction kids as [|e r IH]; cbn [update_first]; [constructor|].
  destruct (has_id id e) eqn:E; [|now constructor].
  destruct (f e).
  - apply touches_change; [exact E|apply touches_only_refl].
  - apply touches_remove; [exact E|apply touches_only_refl].
Qed.

Lemma show_assistant_appends (a : value num) (kids : list element) :
  (exists e, show_assistant a (Some kids) = (Some (kids ++ [e])%list, None))
  \/ (exists err, show_assistant a (Some kids) = (Some kids, Some err)).
Proof.
  unfold show_assistant. cbv zeta.
  assert (Hhtml :
            (exists e,
                match (if truthy a then a else Some (JStr "")) with
                | Some (JStr s) =>
                    (Some (kids ++ [ {| className := "msg bot"; id_attr := "";
                                        inner := innerHTML (replace_newlines s) |} ])%list,
                     None)
                | _ => (Some kids,
                        Some (TypeError "(assistantText || '').replace is not a function"))
                end = (Some (kids ++ [e])%list, None))
            \/ (exists err,
                   match (if truthy a then a else Some (JStr "")) with
                   | Some (JStr s) =>
                       (Some (kids ++ [ {| className := "msg bot"; id_attr := "";
                                           inner := innerHTML (replace_newlines s) |} ])%list,
                        None)
                   | _ => (Some kids,
                           Some (TypeError "(assistantText || '').replace is not a function"))
                   end = (Some kids, Some err))).
  { destruct (if truthy a then a else Some (JStr "")) as [[| | |s| |]|];
      try (right; eexists; reflexivity).
    left. eexists. reflexivity. }
  destruct (truthy a); [|exact Hhtml].
  destruct (ToString_value a) as [s|e]; [|right; eexists; reflexivity].
  destruct (test_script s); [|exact Hhtml].
  left. eexists. reflexivity.
Qed.

(** The lookup leaves alone the part of the page that has no element with
    the id. *)
Lemma remove_found_touches (id : string) (d : document) (kids : list element) :
  listed d = Some kids ->
  exists kids1,
    listed (remove_found id d) = Some kids1
    /\ touches_only id kids kids1
    /\ (existsb (node_has id) (earlier d) = false ->
        earlier (remove_found id d) = earlier d)
    /\ (existsb (node_has id) (later d) = false ->
        later (remove_found id d) = later d).
Proof.
  intros Hk. unfold remove_found.
  destruct (existsb (node_has id) (earlier d)) eqn:E1.
  { exists kids. cbn [listed earlier later]. split; [exact Hk|].
    split; [apply touches_only_refl|]. split; [discriminate|reflexivity]. }
  destruct (listed_has id (listed d)) eqn:E2.
  { rewrite Hk. cbn [set_listed listed earlier later]. eexists.
    split; [reflexivity|]. split; [apply update_first_touches|].
    split; reflexivity. }
  exists kids. cbn [listed earlier later]. split; [exact Hk|].
  split; [apply touches_only_refl|]. split; [reflexivity|].
  intros E3. now apply update_first_none.
Qed.

Lemma set_found_text_touches (id line : string) (d : document) (kids : list element) :
  listed d = Some kids ->
  exists kids1,
    listed (set_found_text id line d) = Some kids1
    /\ touches_only id kids kids1
    /\ (existsb (node_has id) (earlier d) = false ->
        earlier (set_found_text id line d) = earlier d)
    /\ (existsb (node_has id) (later d) = false ->
        later (set_found_text id line d) = later d).
Proof.
  intros Hk. unfold set_found_text.
  destruct (existsb (node_has id) (earlier d)) eqn:E1.
  { exists kids. cbn [listed earlier later]. split; [exact Hk|].
    split; [apply touches_only_refl|]. split; [discriminate|reflexivity]. }
  destruct (listed_has id (listed d)) eqn:E2.
  { rewrite Hk. cbn [set_listed listed earlier later]. eexists.
    split; [reflexivity|]. split; [apply update_first_touches|].
    split; reflexivity. }
  exists kids. cbn [listed earlier later]. split; [exact Hk|].
  split; [apply touches_only_refl|]. split; [reflexivity|].
  intros E3. now apply update_first_none.
Qed.

Lemma sendChat_try_touches (id : string) (f : fetched num) (d : document)
    (kids : list element) :
  listed d = Some kids ->
  exists (kids1 added : list element),
    listed (fst (sendChat_try id f d)) = Some (kids1 ++ added)%list
    /\ touches_only id kids kids1
    /\ (added = [] \/ snd (sendChat_try id f d) = None /\ (List.length added <= 1)%nat)
    /\ (existsb (node_has id) (earlier d) = false ->
        earlier (fst (sendChat_try id f d)) = earlier d)
    /\ (existsb (node_has id) (later d) = false ->
        later (fst (sendChat_try id f d)) = later d).
Proof.
  intros Hk.
  assert (Hsame : forall o : option exn,
             exists (kids1 added : list element),
               listed (fst (d, o)) = Some (kids1 ++ added)%list
               /\ touches_only id kids kids1
               /\ (added = [] \/ snd (d, o) = None /\ (List.length added <= 1)%nat)
               /\ (existsb (node_has id) (earlier d) = false ->
                   earlier (fst (d, o)) = earlier d)
               /\ (existsb (node_has id) (later d) = false ->
                   later (fst (d, o)) = later d)).
  { intros o. exists kids, []. rewrite app_nil_r. cbn [fst]. split; [exact Hk|].
    split; [apply touches_only_refl|]. split; [now left|]. split; reflexivity. }
  unfold sendChat_try. destruct f as [e|res]; [apply Hsame|].
  destruct (negb (ok res)); [destruct (text res); apply Hsame|].
  destruct (parsed res) as [j|e]; [|apply Hsame].
  destruct (assistantText j) as [a|e]; [|apply Hsame].
  cbv zeta. cbn [fst snd set_listed listed earlier later].
  assert (H1 : exists k1,
             listed (if getElementById id d then remove_found id d else d) = Some k1
             /\ touches_only id kids k1
             /\ (existsb (node_has id) (earlier d) = false ->
                 earlier (if getElementById id d then remove_found id d else d)
                 = earlier d)
             /\ (existsb (node_has id) (later d) = false ->
                 later (if getElementById id d then remove_found id d else d)
                 = later d)).
  { destruct (getElementById id d); [now apply remove_found_touches|].
    exists kids. split; [exact Hk|]. split; [apply touches_only_refl|].
    split; reflexivity. }
  destruct H1 as (k1 & Hk1 & Ht1 & He1 & Hl1). rewrite Hk1.
  destruct (show_assistant_appends a k1) as [[e ->]|[err ->]]; cbn [fst snd].
  - exists k1, [e]. split; [reflexivity|]. split; [exact Ht1|].
    split; [right; split; [reflexivity|cbn; lia]|]. now split.
  - exists k1, []. rewrite app_nil_r. split; [reflexivity|].
    split; [exact Ht1|]. split; [now left|]. now split.
Qed.

Lemma sendChat_catch_touches (id : string) (err : exn) (d : document)
    (kids : list element) :
  listed d = Some kids ->
  exists kids2 added,
    listed (sendChat_catch id err d) = Some (kids2 ++ added)%list
    /\ touches_only id kids kids2
    /\ (List.length added <= 2)%nat
    /\ (existsb (node_has id) (earlier d) = false ->
        earlier (sendChat_catch id err d) = earlier d)
    /\ (existsb (node_has id) (later d) = false ->
        later (sendChat_catch id err d) = later d).
Proof.
  intros Hk. unfold sendChat_catch. set (line := "Error: " ++ message_or_err err).
  set (d1 := if getElementById id d
             then set_found_text id line d
             else set_listed (appendMessage line "bot" false (listed d)) d).
  assert (H1 : exists k1 x,
             listed d1 = Some (k1 ++ x)%list
             /\ touches_only id kids k1
             /\ (List.length x <= 1)%nat
             /\ (existsb (node_has id) (earlier d) = false -> earlier d1 = earlier d)
             /\ (existsb (node_has id) (later d) = false -> later d1 = later d)).
  { subst d1. destruct (getElementById id d).
    - destruct (set_found_text_touches id line d kids Hk) as (k1 & Hk1 & Ht & He & Hl).
      exists k1, []. rewrite app_nil_r. split; [exact Hk1|]. split; [exact Ht|].
      split; [cbn; lia|]. now split.
    - rewrite Hk. cbn [appendMessage set_listed listed earlier later].
      eexists _, _. split; [reflexivity|].
      split; [apply touches_only_refl|]. split; [cbn; lia|]. split; reflexivity. }
  destruct H1 as (k1 & x & Hk1 & Ht & Hx & He & Hl).
  destruct (nonEmpty (message err) && test_network (message err)).
  - rewrite Hk1. cbn [appendMessage set_listed listed earlier later].
    exists k1. eexists. rewrite <- app_assoc.
    split; [reflexivity|]. split; [exact Ht|].
    split; [rewrite length_app; cbn; lia|]. now split.
  - exists k1, x. split; [exact Hk1|]. split; [exact Ht|]. split; [lia|]. now split.
Qed.

(** X17. A response, whatever it is, changes or removes only elements that
    have the handle of its exchange or hold an element that has it. In the
    message list every other element stays as it is and where it is, and at
    most two elements come after them; the elements of the rest of the page
    stay as they are when none of them has the handle. *)
Theorem sendChat_resume_others (id : string) (f : fetched num) (d : document)
    (kids : list element) :
  listed d = Some kids ->
  (exists kids' added,
      listed (sendChat_resume id f d) = Some (kids' ++ added)%list
      /\ touches_only id kids kids'
      /\ (List.length added <= 2)%nat)
  /\ (existsb (node_has id) (earlier d) = false ->
      earlier (sendChat_resume id f d) = earlier d)
  /\ (existsb (node_has id) (later d) = false ->
      later (sendChat_resume id f d) = later d).
Proof.
  intros Hk.
  destruct (sendChat_try_touches id f d kids Hk) as (k1 & x & Hl & Ht & Hx & He & Hla).
  unfold sendChat_resume.
  destruct (sendChat_try id f d) as [d1 o]. cbn [fst snd] in Hl, Hx, He, Hla.
  destruct o as [err|].
  - destruct Hx as [->|[Ho _]]; [|discriminate Ho]. rewrite app_nil_r in Hl.
    destruct (sendChat_catch_touches id err d1 k1 Hl)
      as (k2 & y & Hl2 & Ht2 & Hy & He2 & Hla2).
    split; [|split].
    + exists k2, y. split; [exact Hl2|].
      split; [exact (touches_only_trans id _ _ _ Ht Ht2)|exact Hy].
    + intros E. rewrite <- (He E). apply He2. now rewrite (He E).
    + intros E. rewrite <- (Hla E). apply Hla2. now rewrite (Hla E).
  - split; [|split; assumption].
    exists k1, x. split; [exact Hl|]. split; [exact Ht|].
    destruct Hx as [->|[_ Hx]]; cbn; lia.
Qed.

End Others.

Lemma sendChat_resume_others_witness :
  exists kids' added,
    listed (sendChat_resume (thinkingId 1) error_500
              {| earlier := []; listed := Some [userEl "hello"; thinkingEl 1];
                 later := [] |})
    = Some (kids' ++ added)%list
    /\ touches_only (thinkingId 1) [userEl "hello"; thinkingEl 1] kids'
    /\ (List.length added <= 2)%nat.
Proof.
  exact (proj1 (sendChat_resume_others (thinkingId 1) error_500
                  {| earlier := []; listed := Some [userEl "hello"; thinkingEl 1];
                     later := [] |}
                  [userEl "hello"; thinkingEl 1] eq_refl)).
Defined.

(* ================================================================= *)
(** ** [fetchModels] *)

Section Refresh.
Context {num : Type} `{Number num} `{Parser}.

(** X18. Without a key [fetchModels] makes no request: it puts the
    provide-a-key option in the select, enabled again, and appends one
    notice as plain text. Without the select it does nothing at all. *)
Theorem fetchModels_without_key (c : credentials) (sel : select_el) (m : messagesEl_t) :
  no_credential c ->
  fetchModels c (Some sel) m
  = (Some {| disabled := false; select_html := provide_key_option |},
     appendMessage no_key_notice "bot" false m,
     None)
  /\ fetchModels c None m = (None, m, None).
Proof.
  intros Hc. unfold fetchModels. now rewrite (getApiKey_no_credential c Hc).
Qed.

Lemma fetchModels_normalize_not_nil (j : json num) (m m' : messagesEl_t)
    (models : list (value num)) :
  fetchModels_normalize j m = Ok (models, m') -> models <> [].
Proof.
  unfold fetchModels_normalize. destruct (fetchModels_models j) as [l|e]; [|discriminate].
  cbn [bind]. destruct l; cbn [List.length Nat.eqb]; intros [= <- _]; discriminate.
Qed.

Lemma options_start (models : list (value num)) (options : list string) :
  models <> [] ->
  mapM option_html models = Ok options ->
  String.prefix "<option" (join "" options) = true.
Proof.
  destruct models as [|v l]; [congruence|]. intros _. cbn [mapM].
  unfold option_html at 1. destruct (ToString_value v) as [s|e]; [|discriminate].
  cbn [bind]. destruct (mapM option_html l) as [rest|e]; [|discriminate].
  cbn [bind]. intros [= <-]. cbn [join String.concat]. destruct rest; reflexivity.
Qed.

(** X19. Once the response is there, whatever it is, the select is enabled
    again and is never left empty: its markup starts with an option, be it
    a model, a fallback name or the error entry. *)
Theorem fetchModels_resume_select (f : fetched num) (m : messagesEl_t) :
  disabled (fst (fetchModels_resume f m)) = false
  /\ String.prefix "<option" (select_html (fst (fetchModels_resume f m))) = true.
Proof.
  unfold fetchModels_resume.
  destruct (fetchModels_try f m) as [m' [html|err]] eqn:E; cbn [fst disabled select_html].
  - split; [reflexivity|].
    unfold fetchModels_try in E. destruct f as [e|res]; [discriminate E|].
    destruct (negb (ok res)); [destruct (text res); discriminate E|].
    destruct (parsed res) as [j|e]; [|discriminate E].
    destruct (fetchModels_normalize j m) as [[models m1]|e] eqn:En; [|discriminate E].
    destruct (mapM option_html models) as [options|e] eqn:Eo; [|discriminate E].
    cbn [bind] in E. injection E as _ <-.
    exact (options_start models options
             (fetchModels_normalize_not_nil j m m1 models En) Eo).
  - split; reflexivity.
Qed.

(** X20. What [fetchModels] appends to the message list once the response
    is there is plain text, after what the list held: nothing or the
    fallback notice when the options of the select are made, and the error
    line with the network remark, two elements, when anything throws, be it
    [fetch], the status, the parsing, the mapping of the list or the making
    of an option. *)
Theorem fetchModels_resume_messages (f : fetched num) (kids : list element) :
  exists added,
    snd (fetchModels_resume f (Some kids)) = Some (kids ++ added)%list
    /\ Forall plain added
    /\ match snd (fetchModels_try f (Some kids)) with
       | Ok _ => (List.length added <= 1)%nat
       | Throw _ => List.length added = 2%nat
       end.
Proof.
  assert (Hthrow : forall err,
             exists added,
               snd ({| disabled := false; select_html := error_option |},
                    appendMessage cors_notice "bot" false
                      (appendMessage ("Error fetching models: " ++ message_or_err err)
                                     "bot" false (Some kids)))
               = Some (kids ++ added)%list
               /\ Forall plain added /\ List.length added = 2%nat).
  { intros err. cbn [snd appendMessage]. eexists. split; [now rewrite <- app_assoc|].
    split; [|reflexivity].
    constructor; [eexists; reflexivity|].
    constructor; [eexists; reflexivity|constructor]. }
  unfold fetchModels_resume, fetchModels_try.
  destruct f as [e|res]; [apply Hthrow|].
  destruct (negb (ok res)); [destruct (text res); apply Hthrow|].
  destruct (parsed res) as [j|e]; [|apply Hthrow].
  unfold fetchModels_normalize.
  destruct (fetchModels_models j) as [l|e]; [|apply Hthrow]. cbn [bind].
  destruct l as [|v l]; cbn [List.length Nat.eqb].
  - cbn [snd appendMessage]. eexists. split; [reflexivity|].
    split; [|cbn; lia]. constructor; [eexists; reflexivity|constructor].
  - destruct (mapM option_html (v :: l)) as [options|e]; cbn [bind snd];
      [|apply Hthrow].
    exists []. split; [now rewrite app_nil_r|]. split; [constructor|cbn; lia].
Qed.

End Refresh.

Lemma fetchModels_without_key_witness :
  no_credential (keys (pg keyless0))
  /\ snd (fetchModels (keys (pg keyless0)) (Some (mkSelect false "")) (Some [])) = None.
Proof.
  assert (Hc : no_credential (keys (pg keyless0))) by (split; reflexivity).
  split; [exact Hc|].
  rewrite (proj1 (fetchModels_without_key _ (mkSelect false "") (Some []) Hc)).
  reflexivity.
Defined.

(* ================================================================= *)
(** ** A send that does nothing *)

Section Blank.
Context {num : Type} `{Number num} `{Parser}.

Lemma app_one_neq {A : Type} (l : list A) (x : A) : (l ++ [x])%list <> l.
Proof.
  intros E. apply (f_equal (@List.length A)) in E.
  rewrite length_app in E. cbn in E. lia.
Qed.

(** X21. [sendChat] leaves everything as it was exactly when the page has
    the prompt and its text is blank once trimmed; in every other case it
    shows an alert, makes a request or throws. *)
Theorem sendChat_noop_iff (now : Z) (w : world num) :
  sendChat now w = w <-> exists v, promptEl (pg w) = Some v /\ trim v = "".
Proof.
  unfold sendChat. destruct (promptEl (pg w)) as [v|] eqn:Hp.
  - destruct (nonEmpty (trim v)) eqn:Ev; cbn [negb].
    + split.
      * intros E. exfalso.
        destruct (getApiKey (keys (pg w))).
        -- destruct (appendMessage (trim v) "user" false (messagesEl (pg w))).
           ++ apply (f_equal (@requests num)) in E. cbn [requests] in E.
              exact (app_one_neq _ _ E).
           ++ apply (f_equal (@unhandled num)) in E. cbn [unhandled] in E.
              exact (app_one_neq _ _ E).
        -- apply (f_equal (@alerts num)) in E. cbn [alerts alert] in E.
           exact (app_one_neq _ _ E).
      * intros (v' & [= <-] & Hv). rewrite Hv in Ev. discriminate Ev.
    + split; [|reflexivity]. intros _. exists v. split; [reflexivity|].
      now apply nonEmpty_false.
  - split.
    + intros E. apply (f_equal (@alerts num)) in E. cbn [alerts alert] in E.
      exfalso. exact (app_one_neq _ _ E).
    + intros (v & Hv & _). discriminate Hv.
Qed.

End Blank.
